(** * BloomSphere front end: question generator and paper scorer

    A shallow embedding of the TypeScript sources
    - [types.ts]                      (data model),
    - [components/PaperScorer.tsx]    (score aggregation, stacked bars),
    - [components/QuestionGenerator.tsx] (workflow, response mapping, exports),
    - [components/shared/FileUploader.tsx] (file validation).

    Conventions of the embedding.
    - The score arithmetic of the scorer (the totals it accumulates, the
      percentages of a bar) is done on IEEE doubles, as the source does it:
      module [Doubles] holds the score records with [float] entries, the
      aggregation and the bar on them.
    - Where the code only compares numbers, adds slider integers or tests a
      divisor (weights, the dominant category, the basis of a bar in
      [PaperScorer], page geometry), a [number] is an exact rational [Q]
      and equality of two such numbers is [Qeq]; a division whose divisor
      is zero is made visible by [JS.div] returning [None].
    - Array indices, ids and lengths are [nat]; the workflow step is [Z].
    - A JavaScript string is a [string] holding its UTF-8 bytes.
    - React state is an explicit record; an event handler is a function from
      state to state.  The asynchronous [handleGenerate] is split at its
      suspension: what runs before the request is sent, and what runs when
      the awaited promises have settled with a given outcome. *)

From Stdlib Require Import QArith ZArith List String Ascii Bool Lia Lqa.
From Stdlib Require Import Permutation Sorted DecimalString PrimFloat.
Import ListNotations.

(** ** JavaScript helpers *)

Module JS.

(** [a > b] on numbers. *)
Definition gt (a b : Q) : bool := negb (Qle_bool a b).

(** [a || d] on numbers: [0] is the only falsy exact number. *)
Definition or_num (a d : Q) : Q := if Qeq_bool a 0 then d else a.

(** [a || d] on strings: the empty string is falsy. *)
Definition or_str (a d : string) : string :=
  match a with EmptyString => d | _ => a end.

(** [a / b]; [None] stands for the non-finite result of a zero divisor. *)
Definition div (a b : Q) : option Q :=
  if Qeq_bool b 0 then None else Some (a / b)%Q.

(** [arr.reduce(f, init)]. *)
Definition reduce {A B} (f : B -> A -> B) (init : B) (arr : list A) : B :=
  fold_left f arr init.

(** [arr.reduce(f)] without initial value: a TypeError ([None]) on the
    empty array, else the fold seeded with the first element. *)
Definition reduce1 {A} (f : A -> A -> A) (arr : list A) : option A :=
  match arr with
  | [] => None
  | a :: rest => Some (fold_left f rest a)
  end.

(** [arr.map((x, index) => f x index)]. *)
Fixpoint mapi_from {A B} (i : nat) (f : A -> nat -> B) (arr : list A) : list B :=
  match arr with
  | [] => []
  | x :: rest => f x i :: mapi_from (S i) f rest
  end.

Definition mapi {A B} (f : A -> nat -> B) (arr : list A) : list B :=
  mapi_from 0 f arr.

(** [arr.forEach((x, index) => ...)] threading the variables the body
    assigns to. *)
Fixpoint forEachi_from {A V} (i : nat) (body : V -> A -> nat -> V) (arr : list A) (st : V) : V :=
  match arr with
  | [] => st
  | x :: rest => forEachi_from (S i) body rest (body st x i)
  end.

Definition forEachi {A V} (body : V -> A -> nat -> V) (arr : list A) (st : V) : V :=
  forEachi_from 0 body arr st.

(** [arr.includes(x)] on strings. *)
Definition includes (arr : list string) (x : string) : bool :=
  existsb (String.eqb x) arr.

(** [arr.filter(q => q !== null)] on an array of nullable values. *)
Fixpoint filter_non_null {A} (arr : list (option A)) : list A :=
  match arr with
  | [] => []
  | Some x :: rest => x :: filter_non_null rest
  | None :: rest => filter_non_null rest
  end.

(** [arr.findIndex(p)]: index of the first element satisfying [p], or
    [-1]. *)
Fixpoint findIndex_from {A} (i : Z) (p : A -> bool) (arr : list A) : Z :=
  match arr with
  | [] => (-1)%Z
  | x :: rest => if p x then i else findIndex_from (i + 1)%Z p rest
  end.

Definition findIndex {A} (p : A -> bool) (arr : list A) : Z :=
  findIndex_from 0%Z p arr.

(** [String.fromCharCode(n)]: the UTF-16 code unit [n mod 2^16], held as
    its UTF-8 bytes. *)
Definition fromCharCode (n : Z) : string :=
  let u := Z.to_N (n mod 65536)%Z in
  if (u <? 128)%N then String (ascii_of_N u) EmptyString
  else if (u <? 2048)%N then
    String (ascii_of_N (192 + u / 64))
      (String (ascii_of_N (128 + u mod 64)) EmptyString)
  else
    String (ascii_of_N (224 + u / 4096))
      (String (ascii_of_N (128 + (u / 64) mod 64))
         (String (ascii_of_N (128 + u mod 64)) EmptyString)).

(** The line feed of ['\n']. *)
Definition nl : string := String (ascii_of_nat 10) EmptyString.

(** [arr.join(sep)]. *)
Definition join (sep : string) (arr : list string) : string :=
  String.concat sep arr.

(** Template interpolation of a non-negative integer and of a boolean. *)
Definition show_nat (n : nat) : string := NilZero.string_of_uint (Nat.to_uint n).
Definition show_bool (b : bool) : string :=
  if b then "true"%string else "false"%string.

End JS.

(** The DOM [File], as far as the program reads it. *)
Record File : Set := mkFile {
  f_name : string;
  f_type : string;
  f_size : N
}.

(** ** types.ts *)

Inductive BloomCategory : Set :=
| Remembering | Understanding | Applying | Analyzing | Evaluating | Creating.

(** [Record<BloomCategory, number>].  Every object of this type in the
    program is written as a literal listing the six keys in this order, or
    is a spread copy of one, so its key order is the declaration order. *)
Record BloomWeights : Set := mkBloomWeights {
  w_Remembering : Q;
  w_Understanding : Q;
  w_Applying : Q;
  w_Analyzing : Q;
  w_Evaluating : Q;
  w_Creating : Q
}.

(** [w[c]] *)
Definition get (w : BloomWeights) (c : BloomCategory) : Q :=
  match c with
  | Remembering => w_Remembering w
  | Understanding => w_Understanding w
  | Applying => w_Applying w
  | Analyzing => w_Analyzing w
  | Evaluating => w_Evaluating w
  | Creating => w_Creating w
  end.

(** [w[c] = v], also [{...w, [c]: v}] *)
Definition set (w : BloomWeights) (c : BloomCategory) (v : Q) : BloomWeights :=
  match c with
  | Remembering =>
      mkBloomWeights v (w_Understanding w) (w_Applying w) (w_Analyzing w) (w_Evaluating w) (w_Creating w)
  | Understanding =>
      mkBloomWeights (w_Remembering w) v (w_Applying w) (w_Analyzing w) (w_Evaluating w) (w_Creating w)
  | Applying =>
      mkBloomWeights (w_Remembering w) (w_Understanding w) v (w_Analyzing w) (w_Evaluating w) (w_Creating w)
  | Analyzing =>
      mkBloomWeights (w_Remembering w) (w_Understanding w) (w_Applying w) v (w_Evaluating w) (w_Creating w)
  | Evaluating =>
      mkBloomWeights (w_Remembering w) (w_Understanding w) (w_Applying w) (w_Analyzing w) v (w_Creating w)
  | Creating =>
      mkBloomWeights (w_Remembering w) (w_Understanding w) (w_Applying w) (w_Analyzing w) (w_Evaluating w) v
  end.

(** [Object.keys(w)] and [Object.values(w)] *)
Definition Object_keys (w : BloomWeights) : list BloomCategory :=
  [Remembering; Understanding; Applying; Analyzing; Evaluating; Creating].

Definition Object_values (w : BloomWeights) : list Q :=
  map (get w) (Object_keys w).

Record DetailedScoreItem : Set := mkDetailedScoreItem {
  question : string;
  score : BloomWeights
}.

Inductive QuestionStatus : Set := pending | accepted | discarded.

Inductive QuestionType : Set := text | TrueFalse | MCQ.

(** [string | boolean] *)
Inductive Answer : Set :=
| AnswerString (s : string)
| AnswerBoolean (b : bool).

Record GeneratedQuestion : Set := mkGeneratedQuestion {
  gq_id : nat;
  gq_text : string;
  gq_status : QuestionStatus;
  gq_question_type : QuestionType;
  gq_options : option (list string);
  gq_answer : option Answer
}.

Record ApiTFInfo : Set := mkApiTFInfo {
  tf_question : string;
  tf_answer : bool
}.

Record ApiMCQInfo : Set := mkApiMCQInfo {
  mcq_question : string;
  mcq_options : list string;
  mcq_answer : string
}.

(** The three declared variants of a generated item, and [ApiUnrecognized]
    for a parsed item whose [question_type] is none of the three literals:
    the [default] branch of the mapper's [switch] receives it and never
    looks at its payload. *)
Inductive ApiGeneratedQuestionItem : Set :=
| ApiText (questioninfo : string)
| ApiTrueFalse (questioninfo : ApiTFInfo)
| ApiMCQ (questioninfo : ApiMCQInfo)
| ApiUnrecognized.

(** ** components/PaperScorer.tsx *)

Module PaperScorer.

Definition CATEGORIES : list BloomCategory :=
  [Remembering; Understanding; Applying; Analyzing; Evaluating; Creating].

(** *** StackedBar *)

(** [Object.values(scores).reduce((a, b) => a + b, 0)] *)
Definition sumValues (scores : BloomWeights) : Q :=
  JS.reduce Qplus 0%Q (Object_values scores).

(** The basis after [if (maxScore === 0) maxScore = totalScore || 1]. *)
Definition StackedBar_maxScore (scores : BloomWeights) (maxScore : Q) : Q :=
  let totalScore := sumValues scores in
  if Qeq_bool maxScore 0 then JS.or_num totalScore 1 else maxScore.

(** [maxScore > 0 ? (value / maxScore) * 100 : 0] for one category. *)
Definition percentage (scores : BloomWeights) (maxScore : Q) (category : BloomCategory)
  : option Q :=
  let maxScore := StackedBar_maxScore scores maxScore in
  let value := get scores category in
  if JS.gt maxScore 0 then
    match JS.div value maxScore with
    | Some r => Some (r * 100)%Q
    | None => None
    end
  else Some 0%Q.

(** *** DetailedScore *)

Definition dominantCategory (item : DetailedScoreItem) : option BloomCategory :=
  JS.reduce1
    (fun a b => if JS.gt (get (score item) a) (get (score item) b) then a else b)
    (Object_keys (score item)).

(** The [maxScore] prop handed to [StackedBar] by both call sites:
    [Object.values(s).reduce((a, b) => a + b, 0) || 1]. *)
Definition callerMaxScore (scores : BloomWeights) : Q :=
  JS.or_num (sumValues scores) 1.

End PaperScorer.

(** ** types.ts and components/PaperScorer.tsx: scores as IEEE doubles *)

Module Doubles.

(** [a || d] on doubles: [0], [-0] and [NaN] are the falsy numbers. *)
Definition or_num (a d : float) : float :=
  if PrimFloat.is_nan a || PrimFloat.is_zero a then d else a.

(** [Record<BloomCategory, number>] *)
Record BloomWeights : Set := mkBloomWeights {
  w_Remembering : float;
  w_Understanding : float;
  w_Applying : float;
  w_Analyzing : float;
  w_Evaluating : float;
  w_Creating : float
}.

(** [w[c]] *)
Definition get (w : BloomWeights) (c : BloomCategory) : float :=
  match c with
  | Remembering => w_Remembering w
  | Understanding => w_Understanding w
  | Applying => w_Applying w
  | Analyzing => w_Analyzing w
  | Evaluating => w_Evaluating w
  | Creating => w_Creating w
  end.

(** [w[c] = v] *)
Definition set (w : BloomWeights) (c : BloomCategory) (v : float) : BloomWeights :=
  match c with
  | Remembering =>
      mkBloomWeights v (w_Understanding w) (w_Applying w) (w_Analyzing w) (w_Evaluating w) (w_Creating w)
  | Understanding =>
      mkBloomWeights (w_Remembering w) v (w_Applying w) (w_Analyzing w) (w_Evaluating w) (w_Creating w)
  | Applying =>
      mkBloomWeights (w_Remembering w) (w_Understanding w) v (w_Analyzing w) (w_Evaluating w) (w_Creating w)
  | Analyzing =>
      mkBloomWeights (w_Remembering w) (w_Understanding w) (w_Applying w) v (w_Evaluating w) (w_Creating w)
  | Evaluating =>
      mkBloomWeights (w_Remembering w) (w_Understanding w) (w_Applying w) (w_Analyzing w) v (w_Creating w)
  | Creating =>
      mkBloomWeights (w_Remembering w) (w_Understanding w) (w_Applying w) (w_Analyzing w) (w_Evaluating w) v
  end.

Record DetailedScoreItem : Set := mkDetailedScoreItem {
  question : string;
  score : BloomWeights
}.

Record ScoreData : Set := mkScoreData {
  totalScore : BloomWeights;
  detailedScores : list DetailedScoreItem;
  totalQuestions : nat
}.

Record ApiQuestionScore : Set := mkApiQuestionScore {
  aq_question : string;
  aq_question_type : QuestionType;
  aq_option : option (list string);
  aq_remembering : float;
  aq_understanding : float;
  aq_applying : float;
  aq_analyzing : float;
  aq_evaluating : float;
  aq_creating : float
}.

(** *** handleSubmit: mapping and aggregation of a successful response *)

(** The callback of [apiData.map(item => ...)]. *)
Definition toDetailedScore (item : ApiQuestionScore) : DetailedScoreItem :=
  {| question := aq_question item;
     score := {| w_Remembering := aq_remembering item;
                 w_Understanding := aq_understanding item;
                 w_Applying := aq_applying item;
                 w_Analyzing := aq_analyzing item;
                 w_Evaluating := aq_evaluating item;
                 w_Creating := aq_creating item |} |}.

(** The reducer body: [CATEGORIES.forEach(cat => total[cat] =
    (total[cat] || 0) + item.score[cat])], the accumulator being updated
    in place, one key after the other. *)
Definition addItem (total : BloomWeights) (item : DetailedScoreItem) : BloomWeights :=
  fold_left
    (fun total cat =>
       set total cat (PrimFloat.add (or_num (get total cat) 0%float) (get (score item) cat)))
    PaperScorer.CATEGORIES total.

(** The initial value of the reduction. *)
Definition zeroScore : BloomWeights :=
  mkBloomWeights 0%float 0%float 0%float 0%float 0%float 0%float.

(** [detailedScores.reduce((total, item) => ..., { Remembering: 0, ... })] *)
Definition aggregate (detailedScores : list DetailedScoreItem) : BloomWeights :=
  JS.reduce addItem zeroScore detailedScores.

Definition newScoreData (apiData : list ApiQuestionScore) : ScoreData :=
  let detailedScores := map toDetailedScore apiData in
  {| totalScore := aggregate detailedScores;
     detailedScores := detailedScores;
     totalQuestions := List.length apiData |}.

(** The sum of a sequence of doubles as the reduction takes it: from 0,
    left to right, each addition rounded, a running total that is zero or
    NaN being read as 0. *)
Definition runningSum (values : list float) : float :=
  fold_left (fun total value => PrimFloat.add (or_num total 0%float) value) values 0%float.

(** *** StackedBar *)

(** [Object.values(scores)], in the order the keys were written. *)
Definition Object_values (scores : BloomWeights) : list float :=
  map (get scores) PaperScorer.CATEGORIES.

(** [Object.values(scores).reduce((a, b) => a + b, 0)] *)
Definition sumValues (scores : BloomWeights) : float :=
  JS.reduce PrimFloat.add 0%float (Object_values scores).

(** The basis after [if (maxScore === 0) maxScore = totalScore || 1]. *)
Definition StackedBar_maxScore (scores : BloomWeights) (maxScore : float) : float :=
  let totalScore := sumValues scores in
  if PrimFloat.eqb maxScore 0%float then or_num totalScore 1%float else maxScore.

(** [maxScore > 0 ? (value / maxScore) * 100 : 0] for one category. *)
Definition percentage (scores : BloomWeights) (maxScore : float) (category : BloomCategory)
  : float :=
  let maxScore := StackedBar_maxScore scores maxScore in
  let value := get scores category in
  if PrimFloat.ltb 0%float maxScore then
    PrimFloat.mul (PrimFloat.div value maxScore) 100%float
  else 0%float.

(** The [maxScore] prop handed to [StackedBar] by both call sites:
    [Object.values(s).reduce((a, b) => a + b, 0) || 1]. *)
Definition callerMaxScore (scores : BloomWeights) : float :=
  or_num (sumValues scores) 1%float.

End Doubles.

(** ** components/shared/FileUploader.tsx *)

Module FileUploader.

Definition MAX_SIZE_MB : N := 10.
Definition MAX_SIZE_BYTES : N := MAX_SIZE_MB * 1024 * 1024.

(** What [handleFileChange] leaves behind: the component's [file] (also
    the argument it hands to [onFileSelect]) and its [error]. *)
Record Selection : Set := mkSelection {
  file : option File;
  error : option string
}.

(** [files] is the [FileList | null]; [files?.[0] || null] is its head. *)
Definition handleFileChange (acceptedMimeTypes : list string)
    (fileTypeDescription : string) (files : option (list File)) : Selection :=
  let selectedFile := match files with Some (f :: _) => Some f | _ => None end in
  match selectedFile with
  | None => mkSelection None None
  | Some selectedFile =>
      if negb (JS.includes acceptedMimeTypes (f_type selectedFile)) then
        mkSelection None
          (Some ("Invalid file type. Please upload a " ++ fileTypeDescription ++ " file.")%string)
      else if (MAX_SIZE_BYTES <? f_size selectedFile)%N then
        mkSelection None
          (Some ("File is too large. Maximum size is " ++ "10" ++ "MB.")%string)
      else mkSelection (Some selectedFile) None
  end.

End FileUploader.

(** ** components/QuestionGenerator.tsx *)

Module QuestionGenerator.

Local Open Scope string_scope.

Inductive QuestionLength : Set := Short | Medium | Long.

(** [{ text, trueFalse, mcq }]: slider values, integers from 0 to 10. *)
Record NumQuestions : Set := mkNumQuestions {
  nq_text : nat;
  nq_trueFalse : nat;
  nq_mcq : nat
}.

(** [QuestionType | 'all'] *)
Inductive ReviewFilter : Set :=
| all
| only (t : QuestionType).

(** The [useState] cells of the component. *)
Record State : Set := mkState {
  step : Z;
  uploadedFile : option File;
  userInput : string;
  questionLength : QuestionLength;
  numQuestions : NumQuestions;
  bloomWeights : BloomWeights;
  isLoading : bool;
  error : option string;
  generatedQuestions : list GeneratedQuestion;
  reviewFilter : ReviewFilter;
  isExportMenuOpen : bool
}.

Definition initialState : State :=
  {| step := 1;
     uploadedFile := None;
     userInput := "";
     questionLength := Medium;
     numQuestions := mkNumQuestions 5 0 0;
     bloomWeights := mkBloomWeights 20 20 20 20 10 10;
     isLoading := false;
     error := None;
     generatedQuestions := [];
     reviewFilter := all;
     isExportMenuOpen := false |}.

(** The state setters. *)
Definition setStep (v : Z) (s : State) : State :=
  mkState v (uploadedFile s) (userInput s) (questionLength s) (numQuestions s)
    (bloomWeights s) (isLoading s) (error s) (generatedQuestions s) (reviewFilter s)
    (isExportMenuOpen s).

Definition setUploadedFile (v : option File) (s : State) : State :=
  mkState (step s) v (userInput s) (questionLength s) (numQuestions s)
    (bloomWeights s) (isLoading s) (error s) (generatedQuestions s) (reviewFilter s)
    (isExportMenuOpen s).

Definition setNumQuestions (v : NumQuestions) (s : State) : State :=
  mkState (step s) (uploadedFile s) (userInput s) (questionLength s) v
    (bloomWeights s) (isLoading s) (error s) (generatedQuestions s) (reviewFilter s)
    (isExportMenuOpen s).

Definition setBloomWeights (v : BloomWeights) (s : State) : State :=
  mkState (step s) (uploadedFile s) (userInput s) (questionLength s) (numQuestions s)
    v (isLoading s) (error s) (generatedQuestions s) (reviewFilter s)
    (isExportMenuOpen s).

Definition setIsLoading (v : bool) (s : State) : State :=
  mkState (step s) (uploadedFile s) (userInput s) (questionLength s) (numQuestions s)
    (bloomWeights s) v (error s) (generatedQuestions s) (reviewFilter s)
    (isExportMenuOpen s).

Definition setError (v : option string) (s : State) : State :=
  mkState (step s) (uploadedFile s) (userInput s) (questionLength s) (numQuestions s)
    (bloomWeights s) (isLoading s) v (generatedQuestions s) (reviewFilter s)
    (isExportMenuOpen s).

Definition setGeneratedQuestions (v : list GeneratedQuestion) (s : State) : State :=
  mkState (step s) (uploadedFile s) (userInput s) (questionLength s) (numQuestions s)
    (bloomWeights s) (isLoading s) (error s) v (reviewFilter s)
    (isExportMenuOpen s).

Definition setReviewFilter (v : ReviewFilter) (s : State) : State :=
  mkState (step s) (uploadedFile s) (userInput s) (questionLength s) (numQuestions s)
    (bloomWeights s) (isLoading s) (error s) (generatedQuestions s) v
    (isExportMenuOpen s).

Definition setIsExportMenuOpen (v : bool) (s : State) : State :=
  mkState (step s) (uploadedFile s) (userInput s) (questionLength s) (numQuestions s)
    (bloomWeights s) (isLoading s) (error s) (generatedQuestions s) (reviewFilter s)
    v.

(** [useMemo(() => Object.values(bloomWeights).reduce((sum, w) => sum + w, 0))] *)
Definition totalWeight (s : State) : Q :=
  JS.reduce Qplus 0%Q (Object_values (bloomWeights s)).

(** [useMemo(() => Object.values(numQuestions).reduce((sum, count) => sum + count, 0))] *)
Definition totalNumQuestions (s : State) : nat :=
  let n := numQuestions s in
  JS.reduce Nat.add 0%nat [nq_text n; nq_trueFalse n; nq_mcq n].

Definition handleWeightChange (category : BloomCategory) (value : Q) (s : State) : State :=
  setBloomWeights (set (bloomWeights s) category value) s.

Inductive NumQuestionsKey : Set := key_text | key_trueFalse | key_mcq.

Definition handleNumQuestionChange (type : NumQuestionsKey) (value : nat) (s : State) : State :=
  let prev := numQuestions s in
  setNumQuestions
    match type with
    | key_text => mkNumQuestions value (nq_trueFalse prev) (nq_mcq prev)
    | key_trueFalse => mkNumQuestions (nq_text prev) value (nq_mcq prev)
    | key_mcq => mkNumQuestions (nq_text prev) (nq_trueFalse prev) value
    end s.

Inductive Preset : Set := balanced | high_order | recall.

Definition applyWeightPreset (preset : Preset) (s : State) : State :=
  match preset with
  | balanced => setBloomWeights (mkBloomWeights 17 17 17 17 16 16) s
  | high_order => setBloomWeights (mkBloomWeights 10 10 15 25 25 15) s
  | recall => setBloomWeights (mkBloomWeights 30 30 15 10 10 5) s
  end.

(** *** handleGenerate *)

(** A value caught by [catch (e)]: an [Error] with its message, or
    anything else (the reader's error event, for one). *)
Inductive Thrown : Set :=
| ThrownError (message : string)
| ThrownOther.

(** How the awaited promises of the [try] block settle: one of them
    rejects (file encoding, [fetch], [response.text()], [response.json()]),
    or the response arrives with [ok] false, or it arrives with [ok] true
    and parses to an array of items. *)
Inductive Outcome : Set :=
| Rejected (e : Thrown)
| ResponseNotOk (errorText statusText : string)
| ResponseOk (data : list ApiGeneratedQuestionItem).

(** The callback of [data.map((q, index) => ...)]. *)
Definition toQuestion (q : ApiGeneratedQuestionItem) (index : nat) : option GeneratedQuestion :=
  match q with
  | ApiText questioninfo =>
      Some {| gq_id := index; gq_text := questioninfo; gq_status := pending;
              gq_question_type := text; gq_options := None; gq_answer := None |}
  | ApiTrueFalse questioninfo =>
      Some {| gq_id := index; gq_text := tf_question questioninfo; gq_status := pending;
              gq_question_type := TrueFalse; gq_options := None;
              gq_answer := Some (AnswerBoolean (tf_answer questioninfo)) |}
  | ApiMCQ questioninfo =>
      Some {| gq_id := index; gq_text := mcq_question questioninfo; gq_status := pending;
              gq_question_type := MCQ; gq_options := Some (mcq_options questioninfo);
              gq_answer := Some (AnswerString (mcq_answer questioninfo)) |}
  | ApiUnrecognized => None
  end.

(** [data.map(...).filter((q): q is GeneratedQuestion => q !== null)] *)
Definition mapResponse (data : list ApiGeneratedQuestionItem) : list GeneratedQuestion :=
  JS.filter_non_null (JS.mapi toQuestion data).

(** The synchronous prefix of [handleGenerate]: either a guard returns
    early, or the loading state is entered and the request goes out. *)
Inductive Started : Set :=
| Blocked (s : State)
| InFlight (s : State).

Definition handleGenerate_begin (s : State) : Started :=
  match uploadedFile s with
  | None => Blocked (setError (Some "Please upload a file to generate questions from.") s)
  | Some _ =>
      if (totalNumQuestions s =? 0)%nat then
        Blocked (setError (Some "Please select at least one question to generate.") s)
      else InFlight (setGeneratedQuestions [] (setError None (setIsLoading true s)))
  end.

(** The [try] block: the questions it computes, or what it throws. *)
Definition tryBlock (o : Outcome) : Thrown + list GeneratedQuestion :=
  match o with
  | Rejected e => inl e
  | ResponseNotOk errorText statusText =>
      inl (ThrownError (JS.or_str errorText ("Request failed: " ++ statusText)))
  | ResponseOk data => inr (mapResponse data)
  end.

(** [try { ... } catch (e) { ... } finally { setIsLoading(false) }], run
    on the state current when the promises settle. *)
Definition handleGenerate_settle (o : Outcome) (s : State) : State :=
  setIsLoading false
    match tryBlock o with
    | inr questions => setStep 4 (setGeneratedQuestions questions s)
    | inl e =>
        let errorMessage :=
          match e with
          | ThrownError message => message
          | ThrownOther => "An unknown error occurred."
          end in
        setError (Some ("Failed to generate questions: " ++ errorMessage)) s
    end.

(** One uninterrupted run of [handleGenerate]. *)
Definition handleGenerate (o : Outcome) (s : State) : State :=
  match handleGenerate_begin s with
  | Blocked s' => s'
  | InFlight s' => handleGenerate_settle o s'
  end.

(** The workflow description's four-valued generation status.  The
    component keeps no such variable: the status is read off [isLoading],
    [error] and the review step, which only a successful generation
    enters. *)
Inductive GenerationStatus : Set := idle | loading | failed | success.

Definition generationStatus (s : State) : GenerationStatus :=
  if isLoading s then loading
  else match error s with
       | Some _ => failed
       | None => if (step s =? 4)%Z then success else idle
       end.

Definition updateQuestionStatus (id : nat) (status : QuestionStatus) (s : State) : State :=
  setGeneratedQuestions
    (map (fun q =>
            if (gq_id q =? id)%nat then
              mkGeneratedQuestion (gq_id q) (gq_text q) status (gq_question_type q)
                (gq_options q) (gq_answer q)
            else q)
       (generatedQuestions s)) s.

Definition QuestionType_eqb (a b : QuestionType) : bool :=
  match a, b with
  | text, text | TrueFalse, TrueFalse | MCQ, MCQ => true
  | _, _ => false
  end.

Definition filteredQuestions (s : State) : list GeneratedQuestion :=
  match reviewFilter s with
  | all => generatedQuestions s
  | only t => filter (fun q => QuestionType_eqb (gq_question_type q) t) (generatedQuestions s)
  end.

Definition acceptedQuestions (s : State) : list GeneratedQuestion :=
  filter (fun q => match gq_status q with accepted => true | _ => false end)
    (generatedQuestions s).

(** *** Footer navigation and the generation triggers *)

Definition isNull {A} (x : option A) : bool :=
  match x with None => true | Some _ => false end.

(** [Back]: [disabled={step === 1 || isLoading}] *)
Definition clickBack (s : State) : State :=
  if (step s =? 1)%Z || isLoading s then s
  else setStep (Z.max 1 (step s - 1)) s.

(** [Next]: rendered when [step < 3];
    [disabled={(step === 1 && !uploadedFile) || (step === 2 && totalNumQuestions === 0)}] *)
Definition nextDisabled (s : State) : bool :=
  ((step s =? 1)%Z && isNull (uploadedFile s))
  || ((step s =? 2)%Z && (totalNumQuestions s =? 0)%nat).

Definition clickNext (s : State) : State :=
  if (step s <? 3)%Z && negb (nextDisabled s) then setStep (step s + 1) s else s.

(** [Generate & Review]: rendered when [step === 3];
    [disabled={totalWeight === 0 || isLoading || totalNumQuestions === 0}] *)
Definition generateDisabled (s : State) : bool :=
  Qeq_bool (totalWeight s) 0 || isLoading s || (totalNumQuestions s =? 0)%nat.

Definition clickGenerate (s : State) : Started :=
  if (step s =? 3)%Z && negb (generateDisabled s) then handleGenerate_begin s
  else Blocked s.

(** [Regenerate All]: rendered in the review pane ([step] 4);
    [disabled={isLoading}] *)
Definition clickRegenerate (s : State) : Started :=
  if (step s =? 4)%Z && negb (isLoading s) then handleGenerate_begin s
  else Blocked s.

(** [Start Over]: rendered when [step === 4] *)
Definition clickStartOver (s : State) : State :=
  if (step s =? 4)%Z then
    setGeneratedQuestions [] (setUploadedFile None (setStep 1 s))
  else s.

(** The footer's forward control of the first three steps: [Next] below
    step 3; at step 3 [Generate & Review], followed to the settling of its
    request with outcome [o].  (At step 4 the footer offers [Start Over].) *)
Definition advance (o : Outcome) (s : State) : State :=
  if (step s <? 3)%Z then clickNext s
  else if (step s =? 3)%Z then
    match clickGenerate s with
    | Blocked s' => s'
    | InFlight s' => handleGenerate_settle o s'
    end
  else s.

(** The two controls that invoke generation. *)
Inductive Trigger : Set := GenerateAndReview | RegenerateAll.

Definition invoke (t : Trigger) (s : State) : Started :=
  match t with
  | GenerateAndReview => clickGenerate s
  | RegenerateAll => clickRegenerate s
  end.

Definition issuesRequest (r : Started) : bool :=
  match r with InFlight _ => true | Blocked _ => false end.

(** *** handleExportTXT *)

(** [`${q.answer}`] *)
Definition showAnswer (a : option Answer) : string :=
  match a with
  | None => "undefined"
  | Some (AnswerString s) => s
  | Some (AnswerBoolean b) => JS.show_bool b
  end.

(** [opt === answerOption], the answer being whatever [q.answer as string]
    holds at run time. *)
Definition strictEq (opt : string) (answerOption : Answer) : bool :=
  match answerOption with
  | AnswerString s => String.eqb opt s
  | AnswerBoolean _ => false
  end.

(** The [answerLabel] of the text export. *)
Definition answerLabelTXT (options : list string) (answerOption : Answer) : string :=
  let answerIndex := JS.findIndex (fun opt => strictEq opt answerOption) options in
  if negb (answerIndex =? -1)%Z then
    JS.fromCharCode (97 + answerIndex) ++ ") " ++ showAnswer (Some answerOption)
  else showAnswer (Some answerOption).

(** The callback of [acceptedQuestions.map((q, index) => ...)]. *)
Definition questionContentTXT (q : GeneratedQuestion) (index : nat) : string :=
  let questionContent := JS.show_nat (index + 1) ++ ". " ++ gq_text q in
  match gq_question_type q, gq_options q with
  | TrueFalse, _ =>
      questionContent ++ " (True/False)" ++ JS.nl ++ "   Answer: " ++ showAnswer (gq_answer q)
  | MCQ, Some options =>
      let optionsString :=
        JS.join JS.nl
          (JS.mapi (fun opt i => "   " ++ JS.fromCharCode (97 + Z.of_nat i) ++ ") " ++ opt)
             options) in
      let questionContent := questionContent ++ JS.nl ++ optionsString in
      match gq_answer q with
      | Some answerOption =>
          questionContent ++ JS.nl ++ "   Answer: " ++ answerLabelTXT options answerOption
      | None => questionContent
      end
  | _, _ => questionContent
  end.

(** The downloaded text ([None]: nothing accepted, nothing happens) and
    the state afterwards. *)
Definition handleExportTXT (s : State) : option string * State :=
  match acceptedQuestions s with
  | [] => (None, s)
  | _ =>
      (Some (JS.join (JS.nl ++ JS.nl) (JS.mapi questionContentTXT (acceptedQuestions s))),
       setIsExportMenuOpen false s)
  end.

(** *** handleExportPDF *)

Record Font : Set := mkFont {
  fontName : string;
  fontStyle : string;
  fontSize : Q
}.

(** What the export asks of the jsPDF document, in order. *)
Inductive PdfOp : Set :=
| addPage
| drawText (font : Font) (lines : list string) (x y : Q) (centered : bool)
| save (filename : string).

(** The document together with the [yPos] cursor of the handler. *)
Record Pdf : Set := mkPdf {
  ops : list PdfOp;
  font : Font;
  yPos : Q
}.

Definition setFont (name style : string) (d : Pdf) : Pdf :=
  mkPdf (ops d) (mkFont name style (fontSize (font d))) (yPos d).

Definition setFontSize (size : Q) (d : Pdf) : Pdf :=
  mkPdf (ops d) (mkFont (fontName (font d)) (fontStyle (font d)) size) (yPos d).

Definition emit (op : PdfOp) (d : Pdf) : Pdf :=
  mkPdf (ops d ++ [op]) (font d) (yPos d).

(** [yPos += dy] *)
Definition advanceY (dy : Q) (d : Pdf) : Pdf :=
  mkPdf (ops d) (font d) (yPos d + dy)%Q.

(** [lines.length * h] *)
Definition extent (lines : list string) (h : Q) : Q :=
  (inject_Z (Z.of_nat (List.length lines)) * h)%Q.

(** The closure [checkPageBreak], with the [margin] and [pageHeight] it
    captures. *)
Definition checkPageBreak (margin pageHeight : Q) (neededHeight : Q) (d : Pdf) : Pdf :=
  if JS.gt (yPos d + neededHeight) (pageHeight - margin) then
    mkPdf (ops d ++ [addPage]) (font d) margin
  else d.

(** The [answerLabel] of the paginated export. *)
Definition answerLabelPDF (options : list string) (answerOption : Answer) : string :=
  let answerIndex := JS.findIndex (fun opt => strictEq opt answerOption) options in
  if negb (answerIndex =? -1)%Z then
    JS.fromCharCode (97 + answerIndex) ++ ") " ++ showAnswer (Some answerOption)
  else showAnswer (Some answerOption).

(** The [answerString] of the paginated export, for a question whose
    answer is defined. *)
Definition answerStringPDF (q : GeneratedQuestion) (answer : Answer) : string :=
  match gq_question_type q, gq_options q with
  | TrueFalse, _ => "Answer: " ++ showAnswer (Some answer)
  | MCQ, Some options => "Answer: " ++ answerLabelPDF options answer
  | _, _ => ""
  end.

Section Document.

(** The page geometry and the line breaker of the jsPDF document:
    [doc.internal.pageSize.getHeight()], [.getWidth()] and
    [doc.splitTextToSize], which measures with the current font. *)
Variables pageHeight pageWidth : Q.
Variable splitTextToSize : Font -> string -> Q -> list string.

Definition margin : Q := 15.

(** The body of [q.options.forEach((opt, i) => ...)]. *)
Definition drawOption (d : Pdf) (opt : string) (i : nat) : Pdf :=
  let optionChar := JS.fromCharCode (97 + Z.of_nat i) ++ ")" in
  let optionText := optionChar ++ " " ++ opt in
  let optionLines := splitTextToSize (font d) optionText (pageWidth - margin * 2 - 8)%Q in
  let d := checkPageBreak margin pageHeight (extent optionLines 7) d in
  let d := emit (drawText (font d) optionLines (margin + 8)%Q (yPos d) false) d in
  advanceY (extent optionLines 7) d.

(** The body of [acceptedQuestions.forEach((q, index) => ...)]. *)
Definition drawQuestion (d : Pdf) (q : GeneratedQuestion) (index : nat) : Pdf :=
  let d := setFontSize 12 (setFont "helvetica" "normal" d) in
  let questionText :=
    JS.show_nat (index + 1) ++ ". " ++ gq_text q
    ++ match gq_question_type q with TrueFalse => " (True/False)" | _ => "" end in
  let textLines := splitTextToSize (font d) questionText (pageWidth - margin * 2)%Q in
  let d := checkPageBreak margin pageHeight (extent textLines 7) d in
  let d := emit (drawText (font d) textLines margin (yPos d) false) d in
  let d := advanceY (extent textLines 7) d in
  let d :=
    match gq_question_type q, gq_options q with
    | MCQ, Some options =>
        JS.forEachi drawOption options (setFont "courier" "normal" (advanceY 2 d))
    | _, _ => d
    end in
  let d :=
    match gq_answer q with
    | Some answer =>
        match answerStringPDF q answer with
        | EmptyString => d
        | answerString =>
            let d := setFontSize 11 (setFont "helvetica" "bold" (advanceY 3 d)) in
            let answerLines :=
              splitTextToSize (font d) answerString (pageWidth - margin * 2 - 8)%Q in
            let d := checkPageBreak margin pageHeight (extent answerLines 6) d in
            let d := emit (drawText (font d) answerLines (margin + 4)%Q (yPos d) false) d in
            advanceY (extent answerLines 6) d
        end
    | None => d
    end in
  advanceY 10 d.

(** [new jsPDF()]: one empty page, Helvetica 16, and [yPos = margin]. *)
Definition newDocument : Pdf := mkPdf [] (mkFont "helvetica" "normal" 16) margin.

(** The document operations ([None]: nothing accepted, nothing happens)
    and the state afterwards. *)
Definition handleExportPDF (s : State) : option (list PdfOp) * State :=
  match acceptedQuestions s with
  | [] => (None, s)
  | _ =>
      let d := setFontSize 18 (setFont "helvetica" "bold" newDocument) in
      let d := checkPageBreak margin pageHeight 20 d in
      let d :=
        emit (drawText (font d) ["BloomSphere Generated Questions"]
                (pageWidth / 2)%Q (yPos d) true) d in
      let d := advanceY 15 d in
      let d := JS.forEachi drawQuestion (acceptedQuestions s) d in
      let d := emit (save "bloomsphere-questions.pdf") d in
      (Some (ops d), setIsExportMenuOpen false s)
  end.

End Document.

End QuestionGenerator.

(** ** Vocabulary of the properties *)

Module Spec.

Local Open Scope string_scope.

(** Position of a category in the fixed order. *)
Definition categoryIndex (c : BloomCategory) : nat :=
  match c with
  | Remembering => 0
  | Understanding => 1
  | Applying => 2
  | Analyzing => 3
  | Evaluating => 4
  | Creating => 5
  end.

(** The sum of the six entries of a vector. *)
Definition sumOfEntries (w : BloomWeights) : Q :=
  (w_Remembering w + w_Understanding w + w_Applying w
   + w_Analyzing w + w_Evaluating w + w_Creating w)%Q.


(** An item of the response carries one of the three known tags. *)
Definition recognized (q : ApiGeneratedQuestionItem) : bool :=
  match q with ApiUnrecognized => false | _ => true end.

(** Index of the first option equal to the answer. *)
Fixpoint firstMatch (options : list string) (answer : string) : option nat :=
  match options with
  | [] => None
  | opt :: rest =>
      if String.eqb opt answer then Some 0%nat
      else option_map S (firstMatch rest answer)
  end.

(** The answer label as the export description words it: the letter
    ['a' + index] of the first option equal to the answer, then [") "] and
    that option; the raw answer when no option matches. *)
Definition answerLabel (options : list string) (answer : string) : string :=
  match firstMatch options answer with
  | Some i =>
      JS.fromCharCode (97 + Z.of_nat i) ++ ") " ++ nth i options ""
  | None => answer
  end.

(** The ids [0 .. n-1]. *)
Definition idsUpTo (n : nat) : list nat := seq 0 n.

(** The mapper with its index counter started at [i]; [mapResponse] is
    [mapFrom 0]. *)
Definition mapFrom (i : nat) (data : list ApiGeneratedQuestionItem) : list GeneratedQuestion :=
  JS.filter_non_null (JS.mapi_from i QuestionGenerator.toQuestion data).

End Spec.

(** ** fileToBase64 (both components) *)

Module FileEncoder.

Local Open Scope string_scope.

(** [s.split(sep)] for a one-character separator. *)
Fixpoint split (sep : ascii) (s : string) : list string :=
  match s with
  | EmptyString => [EmptyString]
  | String c rest =>
      if Ascii.eqb c sep then EmptyString :: split sep rest
      else match split sep rest with
           | [] => [String c EmptyString]
           | piece :: pieces => String c piece :: pieces
           end
  end.

(** What the reader's [onload] resolves with, [result] being the Data URL
    it read: [result.split(',')[1]], undefined ([None]) when the URL holds
    no comma. *)
Definition fileToBase64 (result : string) : option string :=
  nth_error (split "," result) 1.

(** No comma occurs in [s]. *)
Fixpoint commaFree (s : string) : bool :=
  match s with
  | EmptyString => true
  | String c rest => negb (Ascii.eqb c ",") && commaFree rest
  end.

End FileEncoder.

(** ** components/PaperScorer.tsx: the form *)

Module ScorerForm.

Local Open Scope string_scope.

(** The [useState] cells of [PaperScorer]. *)
Record State : Set := mkState {
  uploadedFile : option File;
  questionText : string;
  isLoading : bool;
  error : option string;
  scoreData : option Doubles.ScoreData
}.

Definition initialState : State := mkState None "" false None None.

(** The [file] member of the request body. *)
Record FilePart : Set := mkFilePart {
  filename : string;
  content : string;
  mimeType : string
}.

Record Payload : Set := mkPayload {
  p_file : option FilePart;
  p_questions : option string
}.

(** A string, possibly undefined or null, is truthy when it is a non-empty
    string. *)
Definition truthy (x : option string) : bool :=
  match x with
  | Some (String _ _) => true
  | _ => false
  end.

(** The request body, [fileContentBase64] being [null] without a file and
    else what [fileToBase64] resolved with. *)
Definition payload (s : State) (fileContentBase64 : option string) : Payload :=
  {| p_file :=
       match uploadedFile s, fileContentBase64 with
       | Some f, Some (String c rest) =>
           Some (mkFilePart (f_name f) (String c rest) (f_type f))
       | _, _ => None
       end;
     p_questions :=
       match questionText s with
       | EmptyString => None
       | pasted => Some pasted
       end |}.

(** The encoded content the [try] block holds when it builds the body, the
    reader having read the Data URL [result]. *)
Definition encoded (s : State) (result : string) : option string :=
  match uploadedFile s with
  | Some _ => FileEncoder.fileToBase64 result
  | None => None
  end.

Inductive Outcome : Set :=
| Rejected (e : QuestionGenerator.Thrown)
| ResponseNotOk (errorText statusText : string)
| ResponseOk (apiData : list Doubles.ApiQuestionScore).

Inductive Started : Set :=
| Blocked (s : State)
| InFlight (s : State).

(** [!uploadedFile && !questionText] *)
Definition nothingToScore (s : State) : bool :=
  QuestionGenerator.isNull (uploadedFile s)
  && match questionText s with EmptyString => true | _ => false end.

(** The synchronous prefix of [handleSubmit]. *)
Definition handleSubmit_begin (s : State) : Started :=
  if nothingToScore s then
    Blocked (mkState (uploadedFile s) (questionText s) (isLoading s)
               (Some "Please upload a file or paste questions.") (scoreData s))
  else InFlight (mkState (uploadedFile s) (questionText s) true None None).

(** The [try] block: the score data it builds, or what it throws. *)
Definition tryBlock (o : Outcome) : QuestionGenerator.Thrown + Doubles.ScoreData :=
  match o with
  | Rejected e => inl e
  | ResponseNotOk errorText statusText =>
      inl (QuestionGenerator.ThrownError
             (JS.or_str errorText ("Request failed: " ++ statusText)))
  | ResponseOk apiData => inr (Doubles.newScoreData apiData)
  end.

(** [try { ... } catch (e) { ... } finally { setIsLoading(false) }] *)
Definition handleSubmit_settle (o : Outcome) (s : State) : State :=
  match tryBlock o with
  | inr newScoreData =>
      mkState (uploadedFile s) (questionText s) false (error s) (Some newScoreData)
  | inl e =>
      let errorMessage :=
        match e with
        | QuestionGenerator.ThrownError message => message
        | QuestionGenerator.ThrownOther => "An unknown error occurred during scoring."
        end in
      mkState (uploadedFile s) (questionText s) false
        (Some ("Failed to score paper: " ++ errorMessage)) (scoreData s)
  end.

(** One uninterrupted run of [handleSubmit]. *)
Definition handleSubmit (o : Outcome) (s : State) : State :=
  match handleSubmit_begin s with
  | Blocked s' => s'
  | InFlight s' => handleSubmit_settle o s'
  end.

End ScorerForm.

(** ** components/QuestionGenerator.tsx: the component as its user drives it *)

Module Workflow.

Import QuestionGenerator.

Local Open Scope string_scope.

Definition setUserInput (v : string) (s : State) : State :=
  mkState (step s) (uploadedFile s) v (questionLength s) (numQuestions s)
    (bloomWeights s) (isLoading s) (error s) (generatedQuestions s) (reviewFilter s)
    (isExportMenuOpen s).

Definition setQuestionLength (v : QuestionLength) (s : State) : State :=
  mkState (step s) (uploadedFile s) (userInput s) v (numQuestions s)
    (bloomWeights s) (isLoading s) (error s) (generatedQuestions s) (reviewFilter s)
    (isExportMenuOpen s).

(** What can happen to the component: the controls of the four step panes,
    the footer buttons, a mouse press outside the export menu, and the
    settling of the request in flight.  An export carries the jsPDF
    geometry and line breaker it meets. *)
Inductive Event : Type :=
| FileChange (files : option (list File))
| NumQuestionChange (type : NumQuestionsKey) (value : nat)
| QuestionLengthChange (option : QuestionLength)
| UserInputChange (value : string)
| WeightChange (category : BloomCategory) (value : Q)
| ApplyPreset (preset : Preset)
| SetFilter (filter : ReviewFilter)
| Accept (id : nat)
| Discard (id : nat)
| ToggleExportMenu
| ClickOutside
| ExportTXT
| ExportPDF (pageHeight pageWidth : Q) (splitTextToSize : Font -> string -> Q -> list string)
| Back
| Next
| Generate
| Regenerate
| StartOver
| Settle (o : Outcome).

(** A review card with this id is on screen. *)
Definition shown (id : nat) (s : State) : bool :=
  existsb (fun q => (gq_id q =? id)%nat) (filteredQuestions s).

Definition afterStart (r : Started) : State :=
  match r with Blocked s | InFlight s => s end.

(** The state after one event.  A control acts only in the pane that
    renders it and only while enabled; the uploader is the generator's, with
    its default PDF-only list; a request settles only while one is in
    flight. *)
Definition react (e : Event) (s : State) : State :=
  match e with
  | FileChange files =>
      if (step s =? 1)%Z then
        setUploadedFile
          (FileUploader.file (FileUploader.handleFileChange ["application/pdf"] "PDF" files)) s
      else s
  | NumQuestionChange type value =>
      if (step s =? 2)%Z then handleNumQuestionChange type value s else s
  | QuestionLengthChange option =>
      if (step s =? 2)%Z then setQuestionLength option s else s
  | UserInputChange value =>
      if (step s =? 2)%Z then setUserInput value s else s
  | WeightChange category value =>
      if (step s =? 3)%Z then handleWeightChange category value s else s
  | ApplyPreset preset =>
      if (step s =? 3)%Z then applyWeightPreset preset s else s
  | SetFilter filter =>
      if (step s =? 4)%Z then setReviewFilter filter s else s
  | Accept id =>
      if (step s =? 4)%Z && shown id s then updateQuestionStatus id accepted s else s
  | Discard id =>
      if (step s =? 4)%Z && shown id s then updateQuestionStatus id discarded s else s
  | ToggleExportMenu =>
      if (step s =? 4)%Z && negb (List.length (acceptedQuestions s) =? 0)%nat then
        setIsExportMenuOpen (negb (isExportMenuOpen s)) s
      else s
  | ClickOutside =>
      if (step s =? 4)%Z then setIsExportMenuOpen false s else s
  | ExportTXT =>
      if (step s =? 4)%Z && isExportMenuOpen s then snd (handleExportTXT s) else s
  | ExportPDF pageHeight pageWidth splitTextToSize =>
      if (step s =? 4)%Z && isExportMenuOpen s then
        snd (handleExportPDF pageHeight pageWidth splitTextToSize s)
      else s
  | Back => clickBack s
  | Next => clickNext s
  | Generate => afterStart (clickGenerate s)
  | Regenerate => afterStart (clickRegenerate s)
  | StartOver => clickStartOver s
  | Settle o => if isLoading s then handleGenerate_settle o s else s
  end.

(** The state after a sequence of events. *)
Fixpoint run (events : list Event) (s : State) : State :=
  match events with
  | [] => s
  | e :: rest => run rest (react e s)
  end.

Definition reachable (s : State) : Prop :=
  exists events, s = run events initialState.

(** The shape the data model gives a question: options only on a
    multiple-choice question, a boolean answer on true/false, a string
    answer on multiple choice, none on plain text. *)
Definition wellShaped (q : GeneratedQuestion) : Prop :=
  match gq_question_type q with
  | text => gq_options q = None /\ gq_answer q = None
  | TrueFalse => gq_options q = None /\ exists b, gq_answer q = Some (AnswerBoolean b)
  | MCQ => (exists options, gq_options q = Some options)
           /\ exists answer, gq_answer q = Some (AnswerString answer)
  end.

(** A PDF of at most 10 MB. *)
Definition validPdf (f : File) : Prop :=
  f_type f = "application/pdf" /\ (f_size f <= 10 * 1024 * 1024)%N.

(** The number of text blocks among document operations. *)
Definition drawCount (operations : list PdfOp) : nat :=
  List.length
    (filter (fun op => match op with drawText _ _ _ _ _ => true | _ => false end) operations).

(** The number of pages started among document operations. *)
Definition pageCount (operations : list PdfOp) : nat :=
  List.length
    (filter (fun op => match op with addPage => true | _ => false end) operations).

(** The blocks one question contributes: its text, its options when it is
    multiple choice, its answer line when it has one. *)
Definition blocksOf (q : GeneratedQuestion) : nat :=
  1
  + match gq_question_type q, gq_options q with
    | MCQ, Some options => List.length options
    | _, _ => 0
    end
  + match gq_answer q with
    | Some answer =>
        match answerStringPDF q answer with
        | EmptyString => 0
        | _ => 1
        end
    | None => 0
    end.

(** Every text block is placed at or below [top]. *)
Definition placedBelow (top : Q) (operations : list PdfOp) : Prop :=
  Forall (fun op => match op with
                    | drawText _ _ _ y _ => (top <= y)%Q
                    | _ => True
                    end) operations.

End Workflow.

(** ** Further vocabulary *)

Module Terms.

Local Open Scope string_scope.

(** The question [q] with its status replaced. *)
Definition withStatus (status : QuestionStatus) (q : GeneratedQuestion) : GeneratedQuestion :=
  mkGeneratedQuestion (gq_id q) (gq_text q) status (gq_question_type q)
    (gq_options q) (gq_answer q).

(** What every state the user can reach satisfies. *)
Definition invariant (s : QuestionGenerator.State) : Prop :=
  (1 <= QuestionGenerator.step s <= 4)%Z
  /\ StronglySorted lt (map gq_id (QuestionGenerator.generatedQuestions s))
  /\ Forall Workflow.wellShaped (QuestionGenerator.generatedQuestions s)
  /\ (forall f, QuestionGenerator.uploadedFile s = Some f -> Workflow.validPdf f)
  /\ (QuestionGenerator.isLoading s = true ->
      QuestionGenerator.generatedQuestions s = []
      /\ QuestionGenerator.error s = None).

(** The cursor of the paginated export is at or below the top margin and
    so is every block drawn so far. *)
Definition settled (d : QuestionGenerator.Pdf) : Prop :=
  (QuestionGenerator.margin <= QuestionGenerator.yPos d)%Q
  /\ Workflow.placedBelow QuestionGenerator.margin (QuestionGenerator.ops d).

(** From [d] to [d'] exactly [n] blocks were drawn and at most [n] pages
    started. *)
Definition grows (n : nat) (d d' : QuestionGenerator.Pdf) : Prop :=
  Workflow.drawCount (QuestionGenerator.ops d')
  = (Workflow.drawCount (QuestionGenerator.ops d) + n)%nat
  /\ (Workflow.pageCount (QuestionGenerator.ops d')
      <= Workflow.pageCount (QuestionGenerator.ops d) + n)%nat.

(** A text block as the paginated export hands it to jsPDF, the height at
    which it lands left out: the font in force, the lines, the left edge
    (the centre, for a centred block) and whether it is centred. *)
Definition Block : Set := (QuestionGenerator.Font * list string * Q * bool)%type.

(** The text blocks among document operations, in drawing order. *)
Definition drawn (operations : list QuestionGenerator.PdfOp) : list Block :=
  flat_map (fun op => match op with
                      | QuestionGenerator.drawText f lines x _ centered =>
                          [(f, lines, x, centered)]
                      | _ => []
                      end) operations.

(** From [d] to [d'] exactly the blocks [blocks] were drawn, in this
    order. *)
Definition draws (blocks : list Block) (d d' : QuestionGenerator.Pdf) : Prop :=
  drawn (QuestionGenerator.ops d') = (drawn (QuestionGenerator.ops d) ++ blocks)%list.

Section Blocks.

Variable pageWidth : Q.
Variable splitTextToSize : QuestionGenerator.Font -> string -> Q -> list string.

(** The centred heading, Helvetica bold 18. *)
Definition titleBlock : Block :=
  (QuestionGenerator.mkFont "helvetica" "bold" 18, ["BloomSphere Generated Questions"],
   (pageWidth / 2)%Q, true).

(** The numbered question text, Helvetica 12 at the left margin, wrapped
    to the width between the margins; a true/false question is marked. *)
Definition textBlock (q : GeneratedQuestion) (index : nat) : Block :=
  let f := QuestionGenerator.mkFont "helvetica" "normal" 12 in
  (f,
   splitTextToSize f
     (JS.show_nat (index + 1) ++ ". " ++ gq_text q
      ++ match gq_question_type q with TrueFalse => " (True/False)" | _ => "" end)
     (pageWidth - 15 * 2)%Q,
   15%Q, false).

(** One lettered option, Courier 12, indented by 8. *)
Definition optionBlock (opt : string) (i : nat) : Block :=
  let f := QuestionGenerator.mkFont "courier" "normal" 12 in
  (f,
   splitTextToSize f ((JS.fromCharCode (97 + Z.of_nat i) ++ ")") ++ " " ++ opt)
     (pageWidth - 15 * 2 - 8)%Q,
   (15 + 8)%Q, false).

(** The answer line, Helvetica bold 11, indented by 4. *)
Definition answerBlock (answerString : string) : Block :=
  let f := QuestionGenerator.mkFont "helvetica" "bold" 11 in
  (f, splitTextToSize f answerString (pageWidth - 15 * 2 - 8)%Q, (15 + 4)%Q, false).

(** The answer line of a question, when it gets one: a true/false question
    with an answer shows it as "true" or "false"; a multiple-choice
    question with options and an answer shows the answer, behind the letter
    of the first option equal to it when there is one. *)
Definition answerLine (q : GeneratedQuestion) : option string :=
  match gq_question_type q, gq_options q, gq_answer q with
  | TrueFalse, _, Some (AnswerBoolean b) => Some ("Answer: " ++ JS.show_bool b)
  | TrueFalse, _, Some (AnswerString a) => Some ("Answer: " ++ a)
  | MCQ, Some options, Some (AnswerString a) =>
      Some ("Answer: " ++ Spec.answerLabel options a)
  | MCQ, Some options, Some (AnswerBoolean b) => Some ("Answer: " ++ JS.show_bool b)
  | _, _, _ => None
  end.

(** The blocks of one accepted question, in order: its text, its options
    when it is multiple choice, its answer line when it has one. *)
Definition blocksFor (q : GeneratedQuestion) (index : nat) : list Block :=
  ([textBlock q index]
   ++ match gq_question_type q, gq_options q with
      | MCQ, Some options => JS.mapi optionBlock options
      | _, _ => []
      end
   ++ match answerLine q with
      | Some answerString => [answerBlock answerString]
      | None => []
      end)%list.

End Blocks.

End Terms.

(** * Properties *)

(** ** Bridging the boolean tests of the embedding *)

Lemma gt_true (a b : Q) : JS.gt a b = true <-> (b < a)%Q.
Proof.
  unfold JS.gt. rewrite negb_true_iff. split.
  - intros H. apply Qnot_le_lt. intros Hle. apply Qle_bool_iff in Hle. congruence.
  - intros H. destruct (Qle_bool a b) eqn:E; [|reflexivity].
    apply Qle_bool_iff in E. exfalso. apply (Qlt_not_le _ _ H E).
Qed.

Lemma gt_false (a b : Q) : JS.gt a b = false <-> (a <= b)%Q.
Proof.
  unfold JS.gt. rewrite negb_false_iff. apply Qle_bool_iff.
Qed.

Lemma or_num_zero (a : Q) : (JS.or_num a 0 == a)%Q.
Proof.
  unfold JS.or_num. destruct (Qeq_bool a 0) eqn:E; [|reflexivity].
  apply Qeq_bool_iff in E. symmetry. exact E.
Qed.


(** ** PaperScorer: dominant category *)

Section DominantCategory.

Import PaperScorer Spec.

Ltac split_gt :=
  repeat match goal with
    | |- context [JS.gt ?a ?b] =>
        is_var a; is_var b;
        let E := fresh "E" in
        destruct (JS.gt a b) eqn:E;
        [apply gt_true in E | apply gt_false in E];
        cbn [get w_Remembering w_Understanding w_Applying w_Analyzing
               w_Evaluating w_Creating]
    end.

(** C2, the tie: with Remembering and Understanding both at 5 and the
    others at 0, the fold returns Understanding, not Remembering. *)
Lemma dominantCategory_tie_is_not_first :
  let item := mkDetailedScoreItem "" (mkBloomWeights 5 5 0 0 0 0) in
  dominantCategory item = Some Understanding
  /\ dominantCategory item <> Some Remembering.
Proof.
  split; [reflexivity | discriminate].
Qed.

(** C2, as the code has it: [dominantCategory] always returns a category,
    that category holds the maximal value of the vector, and among the
    categories tied at the maximum it is the latest in the fixed order. *)
Theorem dominantCategory_last_maximum (item : DetailedScoreItem) :
  exists c,
    dominantCategory item = Some c
    /\ (forall c', get (score item) c' <= get (score item) c)%Q
    /\ (forall c', (get (score item) c' == get (score item) c)%Q ->
                   (categoryIndex c' <= categoryIndex c)%nat).
Proof.
  destruct item as [q [r u a n e k]].
  unfold dominantCategory, JS.reduce1, Object_keys. cbn [fold_left score get
    w_Remembering w_Understanding w_Applying w_Analyzing w_Evaluating w_Creating].
  split_gt; eexists; (split; [reflexivity|]); split; intros c'; destruct c';
    cbn [get categoryIndex w_Remembering w_Understanding w_Applying w_Analyzing
           w_Evaluating w_Creating]; intros; try lia; lra.
Qed.

Lemma dominantCategory_last_maximum_witness :
  let item := mkDetailedScoreItem "Explain osmosis." (mkBloomWeights 1 4 4 2 0 0) in
  exists c, dominantCategory item = Some c
            /\ (categoryIndex Understanding <= categoryIndex c)%nat.
Proof.
  intros item.
  destruct (dominantCategory_last_maximum item) as (c & Hc & _ & Htie).
  exists c. split; [exact Hc|]. apply Htie.
  cbn in Hc. inversion Hc. reflexivity.
Defined.

End DominantCategory.

(** ** PaperScorer: percentages *)

Section Percentage.

Import PaperScorer Spec.








End Percentage.

(** ** PaperScorer: aggregation *)

Section Aggregation.

#[local] Set Warnings "-inexact-float".

Lemma addItem_get (total : Doubles.BloomWeights) (item : Doubles.DetailedScoreItem)
    (c : BloomCategory) :
  Doubles.get (Doubles.addItem total item) c
  = PrimFloat.add (Doubles.or_num (Doubles.get total c) 0%float)
      (Doubles.get (Doubles.score item) c).
Proof.
  destruct total as [r u a n e k]. destruct c; reflexivity.
Qed.

Lemma fold_addItem_get (items : list Doubles.DetailedScoreItem) (c : BloomCategory) :
  forall total,
    Doubles.get (fold_left Doubles.addItem items total) c
    = fold_left (fun t value => PrimFloat.add (Doubles.or_num t 0%float) value)
        (map (fun item => Doubles.get (Doubles.score item) c) items)
        (Doubles.get total c).
Proof.
  induction items as [|item items IH]; intros total; cbn [fold_left map]; [reflexivity|].
  rewrite IH, addItem_get. reflexivity.
Qed.

(** C6, the order: the scores 0.1, 0.2 and 0.3 of one category total
    0.6000000000000001 in this order and 0.6 in the reverse order, so the
    total of a response and the total of a permutation of it differ. *)
Lemma newScoreData_depends_on_order :
  let item v := Doubles.mkApiQuestionScore "" text None v 0%float 0%float 0%float 0%float 0%float in
  let data := Doubles.newScoreData [item 0.1%float; item 0.2%float; item 0.3%float] in
  let data' := Doubles.newScoreData [item 0.3%float; item 0.2%float; item 0.1%float] in
  Permutation [item 0.1%float; item 0.2%float; item 0.3%float]
    [item 0.3%float; item 0.2%float; item 0.1%float]
  /\ Doubles.get (Doubles.totalScore data) Remembering = 0.6000000000000001%float
  /\ Doubles.get (Doubles.totalScore data') Remembering = 0.6%float
  /\ Doubles.get (Doubles.totalScore data) Remembering
     <> Doubles.get (Doubles.totalScore data') Remembering.
Proof.
  intros item data data'. split; [|split; [reflexivity|split; [reflexivity|]]].
  - apply perm_trans with [item 0.2%float; item 0.1%float; item 0.3%float].
    + apply perm_swap.
    + apply perm_trans with [item 0.2%float; item 0.3%float; item 0.1%float].
      * apply perm_skip, perm_swap.
      * apply perm_swap.
  - intros H. apply (f_equal (fun f => PrimFloat.eqb f 0.6%float)) in H.
    vm_compute in H. discriminate H.
Qed.

(** C6, as the code has it: the score data built from a response holds the
    mapped items in the order of the response and counts them, and its
    total is, in every category, the sum of the items' scores as doubles
    add them up: from 0, in the order of the items, each addition rounded
    (a running total that is zero or NaN counting as 0). *)
Theorem newScoreData_running_totals (apiData : list Doubles.ApiQuestionScore) :
  let data := Doubles.newScoreData apiData in
  Doubles.detailedScores data = map Doubles.toDetailedScore apiData
  /\ Doubles.totalQuestions data = List.length (Doubles.detailedScores data)
  /\ (forall c,
        Doubles.get (Doubles.totalScore data) c
        = Doubles.runningSum
            (map (fun item => Doubles.get (Doubles.score item) c)
               (Doubles.detailedScores data))).
Proof.
  cbn [Doubles.newScoreData Doubles.detailedScores Doubles.totalQuestions Doubles.totalScore].
  split; [reflexivity|]. split; [symmetry; apply length_map|].
  intros c. unfold Doubles.aggregate, JS.reduce, Doubles.runningSum.
  rewrite fold_addItem_get. destruct c; reflexivity.
Qed.

Lemma newScoreData_running_totals_witness :
  let a := Doubles.mkApiQuestionScore "Define osmosis." text None
             3%float 1%float 0%float 0%float 0%float 0%float in
  let b := Doubles.mkApiQuestionScore "Compare two designs." text None
             0%float 1%float 0.5%float 2%float 2%float 0%float in
  Doubles.get (Doubles.totalScore (Doubles.newScoreData [a; b])) Understanding = 2%float
  /\ Doubles.totalQuestions (Doubles.newScoreData [a; b]) = 2%nat.
Proof.
  intros a b.
  destruct (newScoreData_running_totals [a; b]) as (_ & Hn & Ht).
  split; [rewrite (Ht Understanding); reflexivity|rewrite Hn; reflexivity].
Defined.

End Aggregation.

(** ** PaperScorer: the bar on doubles *)

Section Bars.

#[local] Set Warnings "-inexact-float".

(** On doubles too the bar never divides by zero.  Whatever the scores and
    the basis handed in, the basis the bar uses is neither 0 nor -0; a
    basis of 0 is replaced by the one the two call sites compute, the sum
    of the six scores or 1 when that sum is 0 or NaN, which is neither
    zero nor NaN; six scores of 0 give 0 percent in every category; and
    six scores of 1 give 16.666666666666664 percent each, the rounded
    quotient, so that the six widths add up to less than 100. *)
Theorem percentage_basis_doubles (scores : Doubles.BloomWeights) (maxScore : float) :
  PrimFloat.is_zero (Doubles.StackedBar_maxScore scores maxScore) = false
  /\ (PrimFloat.eqb maxScore 0%float = true ->
      Doubles.StackedBar_maxScore scores maxScore = Doubles.callerMaxScore scores)
  /\ PrimFloat.is_nan (Doubles.callerMaxScore scores) = false
  /\ PrimFloat.is_zero (Doubles.callerMaxScore scores) = false
  /\ (Doubles.callerMaxScore scores = 1%float
      \/ Doubles.callerMaxScore scores = Doubles.sumValues scores)
  /\ (forall c,
        Doubles.percentage Doubles.zeroScore 0%float c = 0%float
        /\ Doubles.percentage Doubles.zeroScore (Doubles.callerMaxScore Doubles.zeroScore) c
           = 0%float)
  /\ (forall c,
        let ones := Doubles.mkBloomWeights 1%float 1%float 1%float 1%float 1%float 1%float in
        Doubles.percentage ones (Doubles.callerMaxScore ones) c = 16.666666666666664%float
        /\ PrimFloat.ltb
             (JS.reduce PrimFloat.add 0%float
                (map (Doubles.percentage ones (Doubles.callerMaxScore ones))
                   PaperScorer.CATEGORIES))
             100%float = true).
Proof.
  assert (Hcaller : PrimFloat.is_nan (Doubles.callerMaxScore scores) = false
                    /\ PrimFloat.is_zero (Doubles.callerMaxScore scores) = false
                    /\ (Doubles.callerMaxScore scores = 1%float
                        \/ Doubles.callerMaxScore scores = Doubles.sumValues scores)).
  { unfold Doubles.callerMaxScore, Doubles.or_num.
    destruct (PrimFloat.is_nan (Doubles.sumValues scores)) eqn:En;
      [repeat split; auto|].
    destruct (PrimFloat.is_zero (Doubles.sumValues scores)) eqn:Ez;
      cbn [orb]; repeat split; auto. }
  split.
  { unfold Doubles.StackedBar_maxScore.
    destruct (PrimFloat.eqb maxScore 0%float) eqn:E; [exact (proj1 (proj2 Hcaller))|exact E]. }
  split.
  { intros E. unfold Doubles.StackedBar_maxScore. rewrite E. reflexivity. }
  split; [exact (proj1 Hcaller)|]. split; [exact (proj1 (proj2 Hcaller))|].
  split; [exact (proj2 (proj2 Hcaller))|].
  split; intros c; destruct c; split; reflexivity.
Qed.

Lemma percentage_basis_doubles_witness :
  Doubles.StackedBar_maxScore Doubles.zeroScore 0%float = 1%float.
Proof.
  destruct (percentage_basis_doubles Doubles.zeroScore 0%float) as (_ & H & _).
  rewrite (H eq_refl). reflexivity.
Defined.

End Bars.

(** ** QuestionGenerator: the response mapper *)

Section ResponseMapper.

Import QuestionGenerator Spec.

Lemma toQuestion_id (item : ApiGeneratedQuestionItem) (index : nat) (q : GeneratedQuestion) :
  toQuestion item index = Some q -> gq_id q = index /\ gq_status q = pending.
Proof.
  destruct item; cbn; intros H; inversion H; subst; cbn; auto.
Qed.

Lemma toQuestion_recognized (item : ApiGeneratedQuestionItem) (index : nat) :
  recognized item = true <-> exists q, toQuestion item index = Some q.
Proof.
  destruct item; cbn; split; intros H; try reflexivity; try (eexists; reflexivity).
  - discriminate.
  - destruct H as [q H]. discriminate.
Qed.

Lemma mapFrom_cons (i : nat) (item : ApiGeneratedQuestionItem) (data : list ApiGeneratedQuestionItem) :
  mapFrom i (item :: data)
  = match toQuestion item i with
    | Some q => q :: mapFrom (S i) data
    | None => mapFrom (S i) data
    end.
Proof. reflexivity. Qed.


Lemma mapFrom_In (data : list ApiGeneratedQuestionItem) (q : GeneratedQuestion) :
  forall i,
    In q (mapFrom i data)
    <-> exists k item, nth_error data k = Some item /\ toQuestion item (i + k) = Some q.
Proof.
  induction data as [|item data IH]; intros i.
  - cbn. split; [intros []|]. intros (k & item & H & _). destruct k; discriminate.
  - rewrite mapFrom_cons. split.
    + intros H.
      assert (Hrest : In q (mapFrom (S i) data) ->
                      exists k it, nth_error (item :: data) k = Some it
                                   /\ toQuestion it (i + k) = Some q).
      { intros Hin. apply IH in Hin. destruct Hin as (k & it & Hk & Hq).
        exists (S k), it. split; [exact Hk|]. rewrite Nat.add_succ_r. exact Hq. }
      destruct (toQuestion item i) as [q0|] eqn:E; [|auto].
      destruct H as [->|H]; [|auto].
      exists 0%nat, item. rewrite Nat.add_0_r. auto.
    + intros (k & it & Hk & Hq). destruct k as [|k].
      * cbn in Hk. inversion Hk; subst it. rewrite Nat.add_0_r in Hq.
        rewrite Hq. left. reflexivity.
      * cbn in Hk. rewrite Nat.add_succ_r in Hq.
        assert (Hin : In q (mapFrom (S i) data)) by (apply IH; eauto).
        destruct (toQuestion item i); [right|]; exact Hin.
Qed.

Lemma mapFrom_ids_from (data : list ApiGeneratedQuestionItem) :
  forall i q, In q (mapFrom i data) -> (i <= gq_id q < i + List.length data)%nat.
Proof.
  intros i q H. apply mapFrom_In in H. destruct H as (k & item & Hk & Hq).
  apply toQuestion_id in Hq. destruct Hq as [Hid _].
  assert (k < List.length data)%nat by (apply nth_error_Some; congruence).
  lia.
Qed.

Lemma mapFrom_sorted (data : list ApiGeneratedQuestionItem) :
  forall i, StronglySorted lt (map gq_id (mapFrom i data)).
Proof.
  induction data as [|item data IH]; intros i; [constructor|].
  rewrite mapFrom_cons. destruct (toQuestion item i) as [q|] eqn:E; [|apply IH].
  cbn [map]. constructor; [apply IH|].
  apply Forall_forall. intros n Hn. apply in_map_iff in Hn.
  destruct Hn as (q' & <- & Hq'). apply mapFrom_ids_from in Hq'.
  apply toQuestion_id in E. lia.
Qed.

Lemma mapFrom_all_recognized (data : list ApiGeneratedQuestionItem) :
  forallb recognized data = true ->
  forall i, map gq_id (mapFrom i data) = seq i (List.length data).
Proof.
  induction data as [|item data IH]; intros Hall i; [reflexivity|].
  cbn [forallb] in Hall. apply andb_true_iff in Hall. destruct Hall as [Hitem Hall].
  rewrite mapFrom_cons. apply (toQuestion_recognized item i) in Hitem.
  destruct Hitem as [q Hq]. rewrite Hq. cbn [map List.length seq].
  apply toQuestion_id in Hq. destruct Hq as [-> _]. f_equal. apply IH, Hall.
Qed.

Lemma mapFrom_pending (data : list ApiGeneratedQuestionItem) (i : nat) (q : GeneratedQuestion) :
  In q (mapFrom i data) -> gq_status q = pending.
Proof.
  intros H. apply mapFrom_In in H. destruct H as (k & item & _ & Hq).
  apply toQuestion_id in Hq. tauto.
Qed.



End ResponseMapper.

(** ** QuestionGenerator: the generation lifecycle *)

Section Generation.

Import QuestionGenerator Spec.

Local Open Scope string_scope.

(** The message of the [catch] block for a failed outcome. *)
Lemma tryBlock_failure (o : Outcome) :
  (forall data, o <> ResponseOk data) -> exists e, tryBlock o = inl e.
Proof.
  intros H. destruct o as [e|errorText statusText|data]; cbn; eauto.
  destruct (H data eq_refl).
Qed.

Lemma handleGenerate_begin_guards (s : State) :
  issuesRequest (handleGenerate_begin s) = true
  <-> uploadedFile s <> None /\ totalNumQuestions s <> 0%nat.
Proof.
  unfold handleGenerate_begin. destruct (uploadedFile s) as [f|].
  - destruct (Nat.eqb_spec (totalNumQuestions s) 0) as [E|E]; cbn.
    + split; [discriminate|]. intros [_ H]. destruct (H E).
    + split; [|reflexivity]. intros _. split; [discriminate|exact E].
  - cbn. split; [discriminate|]. intros [H _]. destruct (H eq_refl).
Qed.

Lemma handleGenerate_begin_in_flight (s : State) :
  uploadedFile s <> None -> (0 < totalNumQuestions s)%nat ->
  handleGenerate_begin s
  = InFlight (setGeneratedQuestions [] (setError None (setIsLoading true s))).
Proof.
  intros Hf Hn. unfold handleGenerate_begin.
  destruct (uploadedFile s) as [f|]; [|destruct (Hf eq_refl)].
  destruct (Nat.eqb_spec (totalNumQuestions s) 0) as [E|E]; [lia|reflexivity].
Qed.

(** C1, the cleared set: a regeneration from the review step that fails
    leaves no question behind, although one was held before the call. *)
Lemma handleGenerate_failure_clears_questions :
  let q := mkGeneratedQuestion 0 "What is a cell?" accepted text None None in
  let s := mkState 4 (Some (mkFile "notes.pdf" "application/pdf" 1024)) "" Medium
             (mkNumQuestions 5 0 0) (mkBloomWeights 20 20 20 20 10 10)
             false None [q] all false in
  let s' := handleGenerate (ResponseNotOk "Service unavailable" "") s in
  uploadedFile s <> None /\ (0 < totalNumQuestions s)%nat
  /\ generatedQuestions s = [q]
  /\ generatedQuestions s' = []
  /\ generatedQuestions s' <> generatedQuestions s.
Proof.
  cbn. repeat split; try discriminate. lia.
Qed.

(** C1, as the code has it: with a file present and a positive requested
    count, a failed generation (a rejected promise or a response that is
    not ok) ends with loading off, the error set to "Failed to generate
    questions: " followed by the thrown message, the step, the file and the
    configuration unchanged, and the question set empty: the set is cleared
    when the request is sent and is not restored. *)
Theorem handleGenerate_failure (s : State) (o : Outcome) :
  uploadedFile s <> None -> (0 < totalNumQuestions s)%nat ->
  (forall data, o <> ResponseOk data) ->
  let s' := handleGenerate o s in
  step s' = step s
  /\ generationStatus s' = failed
  /\ isLoading s' = false
  /\ (exists e, tryBlock o = inl e
       /\ error s' = Some ("Failed to generate questions: "
                           ++ match e with
                              | ThrownError message => message
                              | ThrownOther => "An unknown error occurred."
                              end))
  /\ uploadedFile s' = uploadedFile s
  /\ numQuestions s' = numQuestions s
  /\ bloomWeights s' = bloomWeights s
  /\ generatedQuestions s' = [].
Proof.
  intros Hf Hn Ho s'.
  destruct (tryBlock_failure o Ho) as [e He].
  subst s'. unfold handleGenerate. rewrite (handleGenerate_begin_in_flight s Hf Hn).
  unfold handleGenerate_settle, generationStatus. rewrite He. cbn.
  split; [reflexivity|]. split; [reflexivity|]. split; [reflexivity|].
  split; [exists e; split; reflexivity|].
  repeat split; reflexivity.
Qed.

Lemma handleGenerate_failure_witness :
  let s := mkState 3 (Some (mkFile "notes.pdf" "application/pdf" 1024)) "" Medium
             (mkNumQuestions 5 0 0) (mkBloomWeights 20 20 20 20 10 10)
             false None [] all false in
  let s' := handleGenerate (ResponseNotOk "" "Bad Gateway") s in
  step s' = 3%Z
  /\ error s' = Some "Failed to generate questions: Request failed: Bad Gateway"
  /\ generatedQuestions s' = [].
Proof.
  intros s s'.
  assert (H1 : uploadedFile s <> None) by discriminate.
  assert (H2 : (0 < totalNumQuestions s)%nat) by (cbn; lia).
  assert (H3 : forall data, ResponseNotOk "" "Bad Gateway" <> ResponseOk data) by discriminate.
  destruct (handleGenerate_failure s (ResponseNotOk "" "Bad Gateway") H1 H2 H3)
    as (Hs & _ & _ & _ & _ & _ & _ & Hq).
  split; [exact Hs|]. split; [reflexivity|exact Hq].
Defined.

(** C3, the gap: a response whose middle item has an unknown tag yields two
    questions whose ids are 0 and 2, not 0 and 1. *)
Lemma handleGenerate_success_ids_have_gaps :
  let s := mkState 3 (Some (mkFile "notes.pdf" "application/pdf" 1024)) "" Medium
             (mkNumQuestions 5 0 0) (mkBloomWeights 20 20 20 20 10 10)
             false None [] all false in
  let data := [ApiText "What is a cell?"; ApiUnrecognized;
               ApiTrueFalse (mkApiTFInfo "Water boils at 100 C." true)] in
  let s' := handleGenerate (ResponseOk data) s in
  map gq_id (generatedQuestions s') = [0; 2]%nat
  /\ map gq_id (generatedQuestions s')
     <> idsUpTo (List.length (generatedQuestions s')).
Proof.
  cbn. split; [reflexivity|discriminate].
Qed.

(** C3, as the code has it: with a file present and a positive requested
    count, a successful response replaces the question set, whatever it
    held, by the mapped response; every question is pending; each id is the
    position of its item in the response, so the ids increase strictly and
    stay below the length of the response, and they are exactly 0..n-1 when
    every item carries a known tag; the step is 4, loading is off, no error
    is shown: the status is success. *)
Theorem handleGenerate_success (s : State) (data : list ApiGeneratedQuestionItem) :
  uploadedFile s <> None -> (0 < totalNumQuestions s)%nat ->
  let s' := handleGenerate (ResponseOk data) s in
  generatedQuestions s' = mapResponse data
  /\ (forall q, In q (generatedQuestions s') -> gq_status q = pending)
  /\ StronglySorted lt (map gq_id (generatedQuestions s'))
  /\ (forall q, In q (generatedQuestions s') -> (gq_id q < List.length data)%nat)
  /\ (forallb recognized data = true ->
      map gq_id (generatedQuestions s') = idsUpTo (List.length (generatedQuestions s')))
  /\ step s' = 4%Z
  /\ isLoading s' = false
  /\ error s' = None
  /\ generationStatus s' = success.
Proof.
  intros Hf Hn s'.
  assert (Hq : generatedQuestions s' = mapFrom 0 data).
  { subst s'. unfold handleGenerate.
    rewrite (handleGenerate_begin_in_flight s Hf Hn). reflexivity. }
  split; [exact Hq|]. rewrite Hq.
  split; [intros q; apply mapFrom_pending|].
  split; [apply mapFrom_sorted|].
  split; [intros q Hin; apply mapFrom_ids_from in Hin; lia|].
  split.
  { intros Hall. unfold idsUpTo. rewrite (mapFrom_all_recognized data Hall 0).
    rewrite <- (length_map gq_id), (mapFrom_all_recognized data Hall 0), length_seq.
    reflexivity. }
  subst s'. unfold handleGenerate.
  rewrite (handleGenerate_begin_in_flight s Hf Hn).
  repeat split; reflexivity.
Qed.

Lemma handleGenerate_success_witness :
  let s := mkState 3 (Some (mkFile "notes.pdf" "application/pdf" 1024)) "" Medium
             (mkNumQuestions 5 0 0) (mkBloomWeights 20 20 20 20 10 10)
             false None [] all false in
  let data := [ApiText "What is a cell?";
               ApiMCQ (mkApiMCQInfo "Capital of France?" ["Paris"; "Lyon"] "Paris")] in
  let s' := handleGenerate (ResponseOk data) s in
  map gq_id (generatedQuestions s') = [0; 1]%nat /\ step s' = 4%Z.
Proof.
  intros s data s'.
  assert (H1 : uploadedFile s <> None) by discriminate.
  assert (H2 : (0 < totalNumQuestions s)%nat) by (cbn; lia).
  destruct (handleGenerate_success s data H1 H2)
    as (_ & _ & _ & _ & Hids & Hstep & _).
  split; [|exact Hstep]. apply Hids. reflexivity.
Defined.

End Generation.

(** ** QuestionGenerator: weights and the generation triggers *)

Section Triggers.

Import QuestionGenerator Spec.

Lemma totalWeight_entries (s : State) :
  (totalWeight s == sumOfEntries (bloomWeights s))%Q.
Proof.
  unfold totalWeight. destruct (bloomWeights s) as [r u a n e k].
  unfold sumOfEntries, JS.reduce, Object_values, Object_keys. cbn. ring.
Qed.

(** C5, both directions of the equivalence fail.  In the review step, with
    every weight at 0, Regenerate All sends a request; in the weights step,
    with the default weights and a request already in flight, Generate and
    Review sends none. *)
Lemma generation_not_gated_by_weight_alone :
  let file := Some (mkFile "notes.pdf" "application/pdf" 1024) in
  let s4 := mkState 4 file "" Medium (mkNumQuestions 5 0 0)
              (mkBloomWeights 0 0 0 0 0 0) false None [] all false in
  let s3 := mkState 3 file "" Medium (mkNumQuestions 5 0 0)
              (mkBloomWeights 20 20 20 20 10 10) true None [] all false in
  ((totalWeight s4 == 0)%Q /\ (0 < totalNumQuestions s4)%nat
   /\ issuesRequest (invoke RegenerateAll s4) = true)
  /\ (~ (totalWeight s3 == 0)%Q /\ (0 < totalNumQuestions s3)%nat
      /\ issuesRequest (invoke GenerateAndReview s3) = false).
Proof.
  cbn. repeat split; try reflexivity; try lia. intros H. discriminate H.
Qed.

(** C5, as the code has it: the weight total is the sum of the six entries;
    and in the weights step, with a file present, a positive requested
    count and no request in flight, the Generate and Review control sends a
    request exactly when the weight total is not zero. *)
Theorem generate_gated_by_weight (s : State) :
  (totalWeight s == sumOfEntries (bloomWeights s))%Q
  /\ (step s = 3%Z -> isLoading s = false ->
      uploadedFile s <> None -> (0 < totalNumQuestions s)%nat ->
      (issuesRequest (invoke GenerateAndReview s) = true <-> ~ (totalWeight s == 0)%Q)).
Proof.
  split; [apply totalWeight_entries|].
  intros Hstep Hload Hf Hn. cbn [invoke]. unfold clickGenerate, generateDisabled.
  rewrite Hstep, Hload. cbn [Z.eqb Pos.eqb andb orb].
  destruct (Nat.eqb_spec (totalNumQuestions s) 0) as [E|_]; [lia|].
  rewrite !orb_false_r.
  destruct (Qeq_bool (totalWeight s) 0) eqn:Ew; cbn [negb].
  - apply Qeq_bool_iff in Ew. cbn. split; [discriminate|]. intros H. destruct (H Ew).
  - apply Qeq_bool_neq in Ew. rewrite (handleGenerate_begin_in_flight s Hf Hn).
    cbn. split; [intros _; exact Ew|reflexivity].
Qed.

Lemma generate_gated_by_weight_witness :
  let s := mkState 3 (Some (mkFile "notes.pdf" "application/pdf" 1024)) "" Medium
             (mkNumQuestions 5 0 0) (mkBloomWeights 20 20 20 20 10 10)
             false None [] all false in
  issuesRequest (invoke GenerateAndReview s) = true.
Proof.
  intros s.
  destruct (generate_gated_by_weight s) as [_ H].
  apply H;
    [reflexivity | reflexivity | discriminate | cbn; lia | intros E; discriminate E].
Defined.

Lemma clickNext_guarded (s : State) :
  (step (clickNext s) = (step s + 1)%Z ->
     (step s < 3)%Z
     /\ (step s = 1%Z -> uploadedFile s <> None)
     /\ (step s = 2%Z -> (0 < totalNumQuestions s)%nat))
  /\ ((step s < 3)%Z ->
      (step s = 1%Z -> uploadedFile s <> None) ->
      (step s = 2%Z -> (0 < totalNumQuestions s)%nat) ->
      clickNext s = setStep (step s + 1) s)
  /\ (step s = 1%Z -> uploadedFile s = None -> clickNext s = s)
  /\ (step s = 2%Z -> totalNumQuestions s = 0%nat -> clickNext s = s).
Proof.
  unfold clickNext, nextDisabled.
  destruct (Z.ltb_spec (step s) 3) as [Hlt|Hge];
    destruct (Z.eqb_spec (step s) 1) as [H1|H1];
    destruct (Z.eqb_spec (step s) 2) as [H2|H2];
    destruct (uploadedFile s) as [f|];
    destruct (Nat.eqb_spec (totalNumQuestions s) 0) as [Hn|Hn];
    cbn [andb orb negb isNull];
    repeat split; intros; try reflexivity; try discriminate; try lia;
    try congruence;
    try match goal with
        | H : _ -> _ <> None |- _ => exfalso; apply H; auto; lia
        | H : _ -> (0 < _)%nat |- _ =>
            exfalso; assert (0 < totalNumQuestions s)%nat by (apply H; lia); lia
        end.
Qed.

(** C10: the forward control moves the step from s to s+1 only when s is
    below 4 and the guard of the step holds, a file at step 1 and a
    positive requested count at step 2; below step 3 it does so whenever
    the guard holds; at step 1 without a file, and at step 2 with a
    requested count of 0, it changes nothing. *)
Theorem advance_guarded (o : Outcome) (s : State) :
  (step (advance o s) = (step s + 1)%Z ->
     (step s < 4)%Z
     /\ (step s = 1%Z -> uploadedFile s <> None)
     /\ (step s = 2%Z -> (0 < totalNumQuestions s)%nat))
  /\ ((step s < 3)%Z ->
      (step s = 1%Z -> uploadedFile s <> None) ->
      (step s = 2%Z -> (0 < totalNumQuestions s)%nat) ->
      advance o s = setStep (step s + 1) s)
  /\ (step s = 1%Z -> uploadedFile s = None -> advance o s = s)
  /\ (step s = 2%Z -> totalNumQuestions s = 0%nat -> advance o s = s).
Proof.
  destruct (clickNext_guarded s) as (Hfwd & Hgo & Hno1 & Hno2).
  unfold advance. destruct (Z.ltb_spec (step s) 3) as [Hlt|Hge].
  - split; [|auto]. intros H. destruct (Hfwd H) as (H3 & Hg1 & Hg2).
    split; [lia|auto].
  - split; [|repeat split; intros; lia].
    intros H. split; [|split; intros; lia].
    destruct (Z.eqb_spec (step s) 3) as [E|E]; [lia|].
    exfalso. lia.
Qed.

Lemma advance_guarded_witness :
  let s0 := QuestionGenerator.initialState in
  let s1 := setUploadedFile (Some (mkFile "notes.pdf" "application/pdf" 1024)) s0 in
  advance (Rejected ThrownOther) s0 = s0
  /\ step (advance (Rejected ThrownOther) s1) = 2%Z.
Proof.
  intros s0 s1. split.
  - destruct (advance_guarded (Rejected ThrownOther) s0) as (_ & _ & H & _).
    apply H; reflexivity.
  - destruct (advance_guarded (Rejected ThrownOther) s1) as (_ & H & _). rewrite H.
    + reflexivity.
    + reflexivity.
    + discriminate.
    + intros E. discriminate E.
Defined.

End Triggers.

(** ** FileUploader: what reaches [uploadedFile] *)

Section Upload.

Import FileUploader.

(** A file handed to [onFileSelect] has passed both checks: its type is in
    the accepted list and its size is at most 10 MB. *)
Lemma handleFileChange_validated (acceptedMimeTypes : list string)
    (fileTypeDescription : string) (files : option (list File)) (f : File) :
  file (handleFileChange acceptedMimeTypes fileTypeDescription files) = Some f ->
  JS.includes acceptedMimeTypes (f_type f) = true
  /\ (f_size f <= 10 * 1024 * 1024)%N
  /\ error (handleFileChange acceptedMimeTypes fileTypeDescription files) = None.
Proof.
  unfold handleFileChange. destruct files as [[|f0 rest]|]; [discriminate| |discriminate].
  destruct (JS.includes acceptedMimeTypes (f_type f0)) eqn:Et; cbn [negb];
    [|discriminate].
  destruct (N.ltb_spec MAX_SIZE_BYTES (f_size f0)) as [Hs|Hs]; [discriminate|].
  cbn [file error]. intros H. inversion H; subst f0. auto.
Qed.

End Upload.

(** ** QuestionGenerator: the two exports *)

Section Exports.

Import QuestionGenerator Spec.

Local Open Scope string_scope.

Lemma findIndex_from_firstMatch (answer : string) (options : list string) :
  forall base,
    JS.findIndex_from base (fun opt => strictEq opt (AnswerString answer)) options
    = match firstMatch options answer with
      | Some i => (base + Z.of_nat i)%Z
      | None => (-1)%Z
      end.
Proof.
  induction options as [|opt options IH]; intros base; [reflexivity|].
  cbn [JS.findIndex_from firstMatch strictEq].
  destruct (String.eqb opt answer); [cbn; lia|].
  rewrite IH. destruct (firstMatch options answer) as [i|]; cbn [option_map]; [lia|reflexivity].
Qed.

Lemma firstMatch_nth (answer : string) (options : list string) :
  forall i, firstMatch options answer = Some i -> nth i options "" = answer.
Proof.
  induction options as [|opt options IH]; intros i; cbn [firstMatch]; [discriminate|].
  destruct (String.eqb_spec opt answer) as [E|_].
  - intros H. inversion H. exact E.
  - destruct (firstMatch options answer) as [j|]; cbn [option_map]; [|discriminate].
    intros H. inversion H. cbn [nth]. apply IH. reflexivity.
Qed.

Lemma firstMatch_first (answer : string) (options : list string) :
  forall i, firstMatch options answer = Some i ->
            forall j, (j < i)%nat -> nth j options "" <> answer.
Proof.
  induction options as [|opt options IH]; intros i; cbn [firstMatch]; [discriminate|].
  destruct (String.eqb_spec opt answer) as [E|E].
  - intros H. inversion H. intros j Hj. lia.
  - destruct (firstMatch options answer) as [k|]; cbn [option_map]; [|discriminate].
    intros H. inversion H. intros [|j] Hj; cbn [nth]; [exact E|].
    apply (IH k eq_refl). lia.
Qed.

Lemma firstMatch_none (answer : string) (options : list string) :
  firstMatch options answer = None -> ~ In answer options.
Proof.
  induction options as [|opt options IH]; cbn [firstMatch]; [intros _ []|].
  destruct (String.eqb_spec opt answer) as [E|E]; [discriminate|].
  destruct (firstMatch options answer); cbn [option_map]; [discriminate|].
  intros _ [H|H]; [exact (E H)|exact (IH eq_refl H)].
Qed.

Lemma answerLabelTXT_spec (options : list string) (answer : string) :
  answerLabelTXT options (AnswerString answer) = answerLabel options answer.
Proof.
  unfold answerLabelTXT, answerLabel, JS.findIndex.
  rewrite findIndex_from_firstMatch.
  destruct (firstMatch options answer) as [i|] eqn:E; [|reflexivity].
  destruct (Z.eqb_spec (0 + Z.of_nat i) (-1)) as [H|_]; [lia|].
  cbn [negb showAnswer]. rewrite (firstMatch_nth answer options i E). reflexivity.
Qed.

Lemma answerLabelPDF_spec (options : list string) (answer : string) :
  answerLabelPDF options (AnswerString answer) = answerLabel options answer.
Proof.
  unfold answerLabelPDF, answerLabel, JS.findIndex.
  rewrite findIndex_from_firstMatch.
  destruct (firstMatch options answer) as [i|] eqn:E; [|reflexivity].
  destruct (Z.eqb_spec (0 + Z.of_nat i) (-1)) as [H|_]; [lia|].
  cbn [negb showAnswer]. rewrite (firstMatch_nth answer options i E). reflexivity.
Qed.



(** The same test with the cursor measured from the top margin: a break
    happens exactly when the block needs more than H - 2M - (yPos - M). *)
Lemma checkPageBreak_relative_cursor (margin pageHeight neededHeight : Q) (d : Pdf) :
  (pageHeight - 2 * margin - (yPos d - margin) < neededHeight)%Q
  <-> checkPageBreak margin pageHeight neededHeight d
      = mkPdf (ops d ++ [addPage]) (font d) margin.
Proof.
  unfold checkPageBreak.
  destruct (JS.gt (yPos d + neededHeight) (pageHeight - margin)) eqn:E.
  - apply gt_true in E. split; [reflexivity|]. intros _. lra.
  - apply gt_false in E. split; [intros H; exfalso; lra|].
    destruct d as [o f y]. cbn. intros H. inversion H as [[Ho Hy]].
    exfalso. revert Ho. clear. induction o as [|x o IH]; cbn; [discriminate|].
    intros H. inversion H. auto.
Qed.


End Exports.

(** * Further properties of the code *)

(** ** FileUploader and fileToBase64 *)

Section UploadAndEncode.

Import FileUploader FileEncoder.

Local Open Scope string_scope.

Ltac tidy :=
  repeat match goal with
    | H : Some _ = Some _ |- _ => inversion H; subst; clear H
    | H : Some _ = None |- _ => discriminate H
    | H : None = Some _ |- _ => discriminate H
    | H : _ /\ _ |- _ => destruct H
    | H : exists _, _ |- _ => destruct H
    | H : _ \/ _ |- _ => destruct H
    end.

(** The uploader keeps a file exactly when the list it is given starts
    with a file of an accepted type and of at most 10 MB (10485760 bytes,
    the bound included); later files of the list are ignored.  A wrong type
    is reported before an excessive size, a refused file leaves an error and
    no file, and an absent or empty list leaves neither. *)
Theorem handleFileChange_accepts (acceptedMimeTypes : list string)
    (fileTypeDescription : string) (files : option (list File)) :
  let r := handleFileChange acceptedMimeTypes fileTypeDescription files in
  (forall f, file r = Some f <->
             (exists rest, files = Some (f :: rest))
             /\ JS.includes acceptedMimeTypes (f_type f) = true
             /\ (f_size f <= 10485760)%N)
  /\ (forall f rest, files = Some (f :: rest) ->
        JS.includes acceptedMimeTypes (f_type f) = false ->
        file r = None
        /\ error r = Some ("Invalid file type. Please upload a "
                           ++ fileTypeDescription ++ " file."))
  /\ (forall f rest, files = Some (f :: rest) ->
        JS.includes acceptedMimeTypes (f_type f) = true ->
        (10485760 < f_size f)%N ->
        file r = None
        /\ error r = Some "File is too large. Maximum size is 10MB.")
  /\ (files = None \/ files = Some [] -> file r = None /\ error r = None)
  /\ (file r = None \/ error r = None).
Proof.
  cbv zeta. unfold handleFileChange.
  destruct files as [[|f0 rest0]|];
    [| change MAX_SIZE_BYTES with 10485760%N;
       destruct (JS.includes acceptedMimeTypes (f_type f0)) eqn:Et; cbn [negb];
       [destruct (N.ltb_spec 10485760 (f_size f0)) as [Hs|Hs]|] |];
    cbn [file error];
    repeat split; intros; tidy; try congruence; try lia; eauto.
Qed.

Lemma handleFileChange_accepts_witness :
  let f := mkFile "notes.pdf" "application/pdf" 10485760 in
  let g := mkFile "scan.png" "image/png" 10485761 in
  file (handleFileChange ["application/pdf"] "PDF" (Some [f; g])) = Some f
  /\ error (handleFileChange ["application/pdf"] "PDF" (Some [g; f]))
     = Some "Invalid file type. Please upload a PDF file.".
Proof.
  intros f g. split.
  - destruct (handleFileChange_accepts ["application/pdf"] "PDF" (Some [f; g])) as (H & _).
    apply H. split; [exists [g]; reflexivity|]. split; [reflexivity|]. cbn. lia.
  - destruct (handleFileChange_accepts ["application/pdf"] "PDF" (Some [g; f]))
      as (_ & H & _).
    apply (H g [f]); reflexivity.
Defined.

Lemma split_nonempty (sep : ascii) (s : string) : split sep s <> [].
Proof.
  destruct s as [|c rest]; cbn; [discriminate|].
  destruct (Ascii.eqb c sep); [discriminate|].
  destruct (split sep rest); discriminate.
Qed.

Lemma split_commaFree (s : string) :
  commaFree s = true -> split "," s = [s].
Proof.
  induction s as [|c rest IH]; cbn; [reflexivity|].
  intros H. apply andb_true_iff in H. destruct H as [Hc Hrest].
  apply negb_true_iff in Hc. rewrite Hc, (IH Hrest). reflexivity.
Qed.

Lemma split_prefix (prefix rest : string) :
  commaFree prefix = true ->
  split "," (prefix ++ "," ++ rest) = prefix :: split "," rest.
Proof.
  induction prefix as [|c prefix IH]; cbn [commaFree append split]; intros H.
  - reflexivity.
  - apply andb_true_iff in H. destruct H as [Hc Hp].
    apply negb_true_iff in Hc. rewrite Hc.
    change (prefix ++ String "," rest) with (prefix ++ "," ++ rest).
    rewrite (IH Hp). reflexivity.
Qed.

(** Splitting at the commas and joining with commas gives the string
    back. *)
Lemma join_split (s : string) : JS.join "," (split "," s) = s.
Proof.
  unfold JS.join. induction s as [|c rest IH]; [reflexivity|].
  cbn [split]. destruct (Ascii.eqb_spec c ",") as [->|_].
  - pose proof (split_nonempty "," rest) as Hne.
    destruct (split "," rest) as [|piece pieces]; [destruct (Hne eq_refl)|].
    cbn [String.concat] in *. rewrite IH. reflexivity.
  - pose proof (split_nonempty "," rest) as Hne.
    destruct (split "," rest) as [|piece pieces]; [destruct (Hne eq_refl)|].
    destruct pieces as [|piece' pieces]; cbn [String.concat append] in *;
      rewrite IH; reflexivity.
Qed.

(** The encoder strips the Data URL header: read from a header without a
    comma, a comma and a comma-free encoding (the Base64 alphabet has no
    comma), it resolves with exactly the encoding, the empty one of an
    empty file included; a result without any comma leaves it undefined;
    and whatever follows a second comma is cut off. *)
Theorem fileToBase64_strips_header (header body : string) :
  commaFree header = true ->
  (commaFree body = true -> fileToBase64 (header ++ "," ++ body) = Some body)
  /\ fileToBase64 header = None
  /\ (forall tail, commaFree body = true ->
        fileToBase64 (header ++ "," ++ body ++ "," ++ tail) = Some body).
Proof.
  intros Hh. unfold fileToBase64. split; [|split].
  - intros Hb. rewrite (split_prefix header body Hh), (split_commaFree body Hb).
    reflexivity.
  - rewrite (split_commaFree header Hh). reflexivity.
  - intros tail Hb.
    rewrite (split_prefix header _ Hh), (split_prefix body tail Hb). reflexivity.
Qed.

Lemma fileToBase64_strips_header_witness :
  fileToBase64 "data:application/pdf;base64,JVBERi0xLjQ=" = Some "JVBERi0xLjQ="
  /\ fileToBase64 "data:application/pdf;base64," = Some "".
Proof.
  split.
  - apply (fileToBase64_strips_header "data:application/pdf;base64" "JVBERi0xLjQ=");
      reflexivity.
  - apply (fileToBase64_strips_header "data:application/pdf;base64" ""); reflexivity.
Defined.

End UploadAndEncode.

(** ** PaperScorer: submitting the form *)

Section Submission.

Import ScorerForm.

Local Open Scope string_scope.

Lemma nothingToScore_spec (s : State) :
  nothingToScore s = true <-> uploadedFile s = None /\ questionText s = "".
Proof.
  unfold nothingToScore. destruct (uploadedFile s), (questionText s); cbn;
    split; try discriminate; auto; intros [H1 H2]; discriminate.
Qed.

(** A submission with neither file nor pasted text only sets the
    validation message: a result shown before stays.  Any other submission
    ends with loading off and exactly one of the two set: the score data
    built from the response and no error, or the message "Failed to score
    paper: ..." and no score data, a result shown before being gone.  The
    file and the pasted text are never changed. *)
Theorem handleSubmit_outcomes (o : Outcome) (s : State) :
  let s' := handleSubmit o s in
  (uploadedFile s = None /\ questionText s = "" ->
     error s' = Some "Please upload a file or paste questions."
     /\ scoreData s' = scoreData s /\ isLoading s' = isLoading s)
  /\ (uploadedFile s <> None \/ questionText s <> "" ->
      isLoading s' = false
      /\ match o with
         | ResponseOk apiData =>
             scoreData s' = Some (Doubles.newScoreData apiData) /\ error s' = None
         | ResponseNotOk errorText statusText =>
             scoreData s' = None
             /\ error s' = Some ("Failed to score paper: "
                                 ++ JS.or_str errorText ("Request failed: " ++ statusText))
         | Rejected (QuestionGenerator.ThrownError message) =>
             scoreData s' = None /\ error s' = Some ("Failed to score paper: " ++ message)
         | Rejected QuestionGenerator.ThrownOther =>
             scoreData s' = None
             /\ error s' = Some "Failed to score paper: An unknown error occurred during scoring."
         end)
  /\ uploadedFile s' = uploadedFile s
  /\ questionText s' = questionText s.
Proof.
  cbv zeta. unfold handleSubmit, handleSubmit_begin.
  destruct (nothingToScore s) eqn:E.
  - apply nothingToScore_spec in E. destruct E as [Ef Et].
    cbn. split; [auto|]. split; [|auto]. intros [H0|H0]; contradiction.
  - assert (Hn : ~ (uploadedFile s = None /\ questionText s = ""))
      by (intros H; apply nothingToScore_spec in H; congruence).
    split; [intros H; destruct (Hn H)|].
    split; [intros _|destruct o as [[m|]|et st|d]; split; reflexivity].
    destruct o as [[m|]|et st|d]; cbn; repeat split; reflexivity.
Qed.

Lemma handleSubmit_outcomes_witness :
  let previous := Doubles.newScoreData [] in
  let s := mkState None "List three causes of erosion." false None (Some previous) in
  scoreData (handleSubmit (ResponseNotOk "" "Bad Gateway") s) = None
  /\ error (handleSubmit (ResponseNotOk "" "Bad Gateway") s)
     = Some "Failed to score paper: Request failed: Bad Gateway".
Proof.
  intros previous s.
  destruct (handleSubmit_outcomes (ResponseNotOk "" "Bad Gateway") s) as (_ & H & _).
  destruct H as (_ & Hd & He); [right; discriminate|].
  split; [exact Hd|exact He].
Defined.

(** The request body carries the file member exactly when a file is held
    and its encoding is a non-empty string, with the file's name and type
    and that encoding; it carries the questions member exactly when text
    was pasted, unchanged.  So a held file whose encoding is empty (an
    empty file) and no pasted text pass the guard of the form and yet send
    a body with neither member. *)
Theorem payload_members (s : State) (fileContentBase64 : option string) :
  (forall part, p_file (payload s fileContentBase64) = Some part <->
     exists f, uploadedFile s = Some f
               /\ truthy fileContentBase64 = true
               /\ fileContentBase64 = Some (content part)
               /\ filename part = f_name f /\ mimeType part = f_type f)
  /\ (forall pasted, p_questions (payload s fileContentBase64) = Some pasted <->
        questionText s = pasted /\ pasted <> "")
  /\ (forall header, FileEncoder.commaFree header = true ->
        uploadedFile s <> None -> questionText s = "" ->
        (exists s', handleSubmit_begin s = InFlight s')
        /\ payload s (encoded s (header ++ ",")) = mkPayload None None).
Proof.
  split; [|split].
  - intros [n c m]. unfold payload. cbn [p_file].
    destruct (uploadedFile s) as [f|]; [destruct fileContentBase64 as [[|c0 r0]|]|];
      cbn [truthy filename content mimeType]; split; try discriminate;
      try (intros (f' & H & _); discriminate);
      try (intros (f' & _ & H & _); discriminate).
    + intros H. inversion H; subst. exists f. auto.
    + intros (f' & Hf & _ & Hc & Hn & Hm). inversion Hf; subst f'.
      inversion Hc. subst. reflexivity.
  - intros pasted. unfold payload. cbn [p_questions].
    destruct (questionText s) as [|c r]; split; try discriminate.
    + intros [<- H]. destruct (H eq_refl).
    + intros H. inversion H. split; [reflexivity|discriminate].
    + intros [<- _]. reflexivity.
  - intros header Hh Hf Ht. split.
    + unfold handleSubmit_begin.
      assert (E : nothingToScore s = false).
      { destruct (nothingToScore s) eqn:E; [|reflexivity].
        apply nothingToScore_spec in E. destruct E as [E _]. destruct (Hf E). }
      rewrite E. eexists. reflexivity.
    + unfold payload, encoded. rewrite Ht.
      destruct (uploadedFile s) as [f|]; [|reflexivity].
      unfold FileEncoder.fileToBase64.
      change (header ++ ",") with (header ++ "," ++ "").
      rewrite (split_prefix header "" Hh). reflexivity.
Qed.

Lemma payload_members_witness :
  let s := mkState (Some (mkFile "empty.pdf" "application/pdf" 0)) "" false None None in
  payload s (encoded s "data:application/pdf;base64,") = mkPayload None None.
Proof.
  intros s.
  destruct (payload_members s None) as (_ & _ & H).
  destruct (H "data:application/pdf;base64") as (_ & Hp);
    [reflexivity | discriminate | reflexivity | exact Hp].
Defined.

End Submission.

(** ** QuestionGenerator: reviewing the questions *)

Section Review.

Import QuestionGenerator Spec Terms.

Local Open Scope string_scope.

Lemma setGeneratedQuestions_same (s : State) :
  setGeneratedQuestions (generatedQuestions s) s = s.
Proof. destruct s; reflexivity. Qed.

Lemma updateQuestionStatus_ids (id : nat) (status : QuestionStatus) (s : State) :
  map gq_id (generatedQuestions (updateQuestionStatus id status s))
  = map gq_id (generatedQuestions s).
Proof.
  unfold updateQuestionStatus. destruct s as [? ? ? ? ? ? ? ? qs ? ?].
  cbn [generatedQuestions setGeneratedQuestions]. rewrite map_map.
  apply map_ext. intros q. destruct (gq_id q =? id)%nat; reflexivity.
Qed.

(** Setting a status touches only the questions carrying the id: an id no
    question carries changes nothing at all; the ids, and so the number and
    order of the questions, stay; setting twice on one id keeps the later
    status; and settings on two different ids can be swapped. *)
Theorem updateQuestionStatus_by_id (id : nat) (status : QuestionStatus) (s : State) :
  ((forall q, In q (generatedQuestions s) -> gq_id q <> id) ->
     updateQuestionStatus id status s = s)
  /\ map gq_id (generatedQuestions (updateQuestionStatus id status s))
     = map gq_id (generatedQuestions s)
  /\ (forall q, In q (generatedQuestions s) -> gq_id q <> id ->
        In q (generatedQuestions (updateQuestionStatus id status s)))
  /\ (forall q, In q (generatedQuestions (updateQuestionStatus id status s)) ->
        gq_id q = id -> gq_status q = status)
  /\ (forall status',
        updateQuestionStatus id status' (updateQuestionStatus id status s)
        = updateQuestionStatus id status' s)
  /\ (forall id' status', id' <> id ->
        updateQuestionStatus id' status' (updateQuestionStatus id status s)
        = updateQuestionStatus id status (updateQuestionStatus id' status' s)).
Proof.
  split; [|split; [apply updateQuestionStatus_ids|split; [|split; [|split]]]].
  - intros Hnone. unfold updateQuestionStatus.
    transitivity (setGeneratedQuestions (generatedQuestions s) s);
      [|apply setGeneratedQuestions_same].
    f_equal. transitivity (map (fun q => q) (generatedQuestions s)); [|apply map_id].
    apply map_ext_in. intros q Hq.
    destruct (Nat.eqb_spec (gq_id q) id) as [E|_]; [destruct (Hnone q Hq E)|reflexivity].
  - intros q Hq Hne. unfold updateQuestionStatus.
    destruct s as [? ? ? ? ? ? ? ? qs ? ?]. cbn [generatedQuestions setGeneratedQuestions] in *.
    apply in_map_iff. exists q. split; [|exact Hq].
    destruct (Nat.eqb_spec (gq_id q) id) as [E|_]; [destruct (Hne E)|reflexivity].
  - intros q Hq Hid. unfold updateQuestionStatus in Hq.
    destruct s as [? ? ? ? ? ? ? ? qs ? ?]. cbn [generatedQuestions setGeneratedQuestions] in *.
    apply in_map_iff in Hq. destruct Hq as (q0 & Hq0 & _).
    destruct (Nat.eqb_spec (gq_id q0) id) as [E|E]; subst q; [reflexivity|].
    destruct (E Hid).
  - intros status'. unfold updateQuestionStatus.
    destruct s as [? ? ? ? ? ? ? ? qs ? ?]. cbn [generatedQuestions setGeneratedQuestions].
    unfold setGeneratedQuestions. cbn. f_equal. rewrite map_map.
    apply map_ext. intros q.
    destruct (Nat.eqb_spec (gq_id q) id) as [E|E]; cbn [gq_id];
      destruct (Nat.eqb_spec (gq_id q) id); try contradiction; reflexivity.
  - intros id' status' Hne. unfold updateQuestionStatus.
    destruct s as [? ? ? ? ? ? ? ? qs ? ?]. cbn [generatedQuestions setGeneratedQuestions].
    unfold setGeneratedQuestions. cbn. f_equal. rewrite !map_map.
    apply map_ext. intros q.
    destruct (Nat.eqb_spec (gq_id q) id) as [E|E];
      destruct (Nat.eqb_spec (gq_id q) id') as [E'|E']; cbn [gq_id];
      try (exfalso; congruence);
      repeat match goal with
        | |- context [(?a =? ?b)%nat] => destruct (Nat.eqb_spec a b); try contradiction
        end; reflexivity.
Qed.

Lemma updateQuestionStatus_by_id_witness :
  let q := mkGeneratedQuestion 2 "What is a cell?" pending text None None in
  let s := setGeneratedQuestions [q] initialState in
  updateQuestionStatus 7 accepted s = s
  /\ updateQuestionStatus 2 accepted (updateQuestionStatus 7 discarded s)
     = updateQuestionStatus 7 discarded (updateQuestionStatus 2 accepted s).
Proof.
  intros q s. split.
  - destruct (updateQuestionStatus_by_id 7 accepted s) as (H & _).
    apply H. intros q' [<-|[]]. discriminate.
  - destruct (updateQuestionStatus_by_id 7 discarded s) as (_ & _ & _ & _ & _ & H).
    apply H. discriminate.
Defined.

Lemma accepted_filter_map (status : QuestionStatus) (id : nat) (qs : list GeneratedQuestion)
    (q : GeneratedQuestion) :
  In q (filter (fun q => match gq_status q with accepted => true | _ => false end)
          (map (fun q => if (gq_id q =? id)%nat then withStatus status q else q) qs))
  <-> (In q qs /\ gq_id q <> id /\ gq_status q = accepted)
      \/ (status = accepted /\ exists q0, In q0 qs /\ gq_id q0 = id /\ q = withStatus accepted q0).
Proof.
  rewrite filter_In, in_map_iff. split.
  - intros ((q0 & Hq & Hin) & Hacc).
    destruct (Nat.eqb_spec (gq_id q0) id) as [E|E]; subst q.
    + right. cbn [withStatus gq_status] in Hacc.
      destruct status; try discriminate. split; [reflexivity|]. exists q0. auto.
    + left. destruct (gq_status q0) eqn:Es; try discriminate. auto.
  - intros [(Hin & Hne & Hacc)|(-> & q0 & Hin & Hid & ->)].
    + split; [|rewrite Hacc; reflexivity]. exists q. split; [|exact Hin].
      destruct (Nat.eqb_spec (gq_id q) id) as [E|_]; [destruct (Hne E)|reflexivity].
    + split; [|reflexivity]. exists q0. split; [|exact Hin].
      destruct (Nat.eqb_spec (gq_id q0) id) as [_|E]; [reflexivity|destruct (E Hid)].
Qed.

(** After a question is accepted, the accepted list holds it, with status
    accepted, next to the accepted questions of other ids; after it is
    discarded, or set back to pending, the list holds only the accepted
    questions of other ids.  Right after a successful generation nothing is
    accepted, so both exports do nothing. *)
Theorem acceptedQuestions_after_update (id : nat) (s : State) (q : GeneratedQuestion) :
  (In q (acceptedQuestions (updateQuestionStatus id accepted s)) <->
     (In q (acceptedQuestions s) /\ gq_id q <> id)
     \/ exists q0, In q0 (generatedQuestions s) /\ gq_id q0 = id
                   /\ q = withStatus accepted q0)
  /\ (forall status, status <> accepted ->
        (In q (acceptedQuestions (updateQuestionStatus id status s)) <->
         In q (acceptedQuestions s) /\ gq_id q <> id))
  /\ (forall data pageHeight pageWidth splitTextToSize,
        uploadedFile s <> None -> (0 < totalNumQuestions s)%nat ->
        let s' := handleGenerate (ResponseOk data) s in
        acceptedQuestions s' = []
        /\ handleExportTXT s' = (None, s')
        /\ handleExportPDF pageHeight pageWidth splitTextToSize s' = (None, s')).
Proof.
  assert (Hacc : forall s0 q0, In q0 (acceptedQuestions s0)
                 <-> In q0 (generatedQuestions s0) /\ gq_status q0 = accepted).
  { intros s0 q0. unfold acceptedQuestions. rewrite filter_In.
    destruct (gq_status q0); split; intros [H1 H2]; split; auto; discriminate. }
  assert (Hupd : forall status,
            In q (acceptedQuestions (updateQuestionStatus id status s))
            <-> (In q (generatedQuestions s) /\ gq_id q <> id /\ gq_status q = accepted)
                \/ (status = accepted
                    /\ exists q0, In q0 (generatedQuestions s) /\ gq_id q0 = id
                                  /\ q = withStatus accepted q0)).
  { intros status. unfold acceptedQuestions at 1, updateQuestionStatus.
    destruct s as [? ? ? ? ? ? ? ? qs ? ?]. cbn [generatedQuestions setGeneratedQuestions].
    apply (accepted_filter_map status id qs q). }
  split; [|split].
  - rewrite Hupd, Hacc. split.
    + intros [(H1 & H2 & H3)|(_ & H)]; [left|right]; auto.
    + intros [((H1 & H3) & H2)|H]; [left|right]; auto.
  - intros status Hne. rewrite Hupd, Hacc. split.
    + intros [(H1 & H2 & H3)|(E & _)]; [auto|destruct (Hne E)].
    + intros ((H1 & H3) & H2). left. auto.
  - intros data pageHeight pageWidth splitTextToSize Hf Hn s'.
    assert (Hq : generatedQuestions s' = mapFrom 0 data).
    { subst s'. unfold handleGenerate.
      rewrite (handleGenerate_begin_in_flight s Hf Hn). reflexivity. }
    assert (Hnone : acceptedQuestions s' = []).
    { unfold acceptedQuestions. rewrite Hq.
      assert (Hp : forall q0, In q0 (mapFrom 0 data) -> gq_status q0 = pending)
        by (intros q0; apply mapFrom_pending).
      revert Hp. generalize (mapFrom 0 data). intros l.
      induction l as [|q0 l IH]; intros Hp; [reflexivity|].
      cbn [filter]. rewrite (Hp q0 (or_introl eq_refl)).
      apply IH. intros q1 H1. apply Hp. right. exact H1. }
    split; [exact Hnone|].
    unfold handleExportTXT, handleExportPDF. rewrite Hnone. split; reflexivity.
Qed.

Lemma acceptedQuestions_after_update_witness :
  let s := mkState 3 (Some (mkFile "notes.pdf" "application/pdf" 1024)) "" Medium
             (mkNumQuestions 5 0 0) (mkBloomWeights 20 20 20 20 10 10)
             false None [] all false in
  handleExportTXT (handleGenerate (ResponseOk [ApiText "What is a cell?"]) s)
  = (None, handleGenerate (ResponseOk [ApiText "What is a cell?"]) s).
Proof.
  intros s.
  destruct (acceptedQuestions_after_update 0 s
              (mkGeneratedQuestion 0 "" pending text None None)) as (_ & _ & H).
  destruct (H [ApiText "What is a cell?"] 297%Q 210%Q (fun _ t _ => [t]))
    as (_ & Htxt & _); [discriminate | cbn; lia | exact Htxt].
Defined.

Lemma filter_by_type_lengths (qs : list GeneratedQuestion) :
  (List.length (filter (fun q => QuestionType_eqb (gq_question_type q) text) qs)
   + List.length (filter (fun q => QuestionType_eqb (gq_question_type q) TrueFalse) qs)
   + List.length (filter (fun q => QuestionType_eqb (gq_question_type q) MCQ) qs)
   = List.length qs)%nat.
Proof.
  induction qs as [|q qs IH]; [reflexivity|].
  cbn [filter]. destruct (gq_question_type q); cbn [QuestionType_eqb List.length]; lia.
Qed.

(** The three type filters split the question set: every question shows
    under exactly one of them, so their lists have, together, the length of
    the list shown under All, which is the whole set; a filter shows
    questions of its own type only; and the filter has no effect on what is
    accepted, hence none on the exports. *)
Theorem filteredQuestions_partition (s : State) :
  filteredQuestions (setReviewFilter all s) = generatedQuestions s
  /\ (List.length (filteredQuestions (setReviewFilter (only text) s))
      + List.length (filteredQuestions (setReviewFilter (only TrueFalse) s))
      + List.length (filteredQuestions (setReviewFilter (only MCQ) s))
      = List.length (generatedQuestions s))%nat
  /\ (forall t q, In q (filteredQuestions (setReviewFilter (only t) s)) <->
        In q (generatedQuestions s) /\ gq_question_type q = t)
  /\ (forall f, acceptedQuestions (setReviewFilter f s) = acceptedQuestions s
                /\ fst (handleExportTXT (setReviewFilter f s)) = fst (handleExportTXT s)).
Proof.
  destruct s as [? ? ? ? ? ? ? ? qs ? ?].
  unfold filteredQuestions, setReviewFilter, handleExportTXT, acceptedQuestions.
  cbn [reviewFilter generatedQuestions]. split; [reflexivity|]. split; [|split].
  - apply filter_by_type_lengths.
  - intros t q. rewrite filter_In. split; intros [H1 H2]; split; auto.
    + destruct (gq_question_type q), t; try discriminate; reflexivity.
    + rewrite H2. destruct t; reflexivity.
  - intros f. split; [reflexivity|].
    destruct (filter _ qs); reflexivity.
Qed.

End Review.

(** ** QuestionGenerator: navigation, configuration and regeneration *)

Section Configuration.

Import QuestionGenerator Spec.

Local Open Scope string_scope.

Lemma setStep_same (s : State) : setStep (step s) s = s.
Proof. destruct s; reflexivity. Qed.

(** Back undoes Next: from step 1 or 2, with the Next control enabled and
    no request in flight, Next followed by Back gives the starting state
    back.  Back does nothing while a request is in flight or at step 1,
    never leads below step 1, moves by one step at most, and changes nothing
    but the step: the file and the questions of later steps stay. *)
Theorem clickBack_undoes_clickNext (s : State) :
  ((1 <= step s < 3)%Z -> isLoading s = false -> nextDisabled s = false ->
     clickBack (clickNext s) = s)
  /\ (isLoading s = true \/ step s = 1%Z -> clickBack s = s)
  /\ ((1 <= step s)%Z ->
      (1 <= step (clickBack s))%Z /\ (step s - 1 <= step (clickBack s) <= step s)%Z)
  /\ clickBack s = setStep (step (clickBack s)) s.
Proof.
  split; [|split; [|split]].
  - intros Hs Hl Hn. unfold clickNext. rewrite Hn.
    destruct (Z.ltb_spec (step s) 3) as [_|H]; [|lia]. cbn [andb negb].
    unfold clickBack. destruct s as [st ? ? ? ? ? ld ? ? ? ?].
    cbn [step isLoading setStep] in *. subst ld.
    destruct (Z.eqb_spec (st + 1) 1) as [E|_]; [lia|]. cbn [orb].
    replace (Z.max 1 (st + 1 - 1)) with st by lia. reflexivity.
  - intros H. unfold clickBack. destruct H as [-> | ->];
      [rewrite orb_true_r|]; reflexivity.
  - intros Hs. unfold clickBack.
    destruct ((step s =? 1)%Z || isLoading s); cbn [step setStep]; [lia|].
    destruct s; cbn [step setStep] in *. lia.
  - unfold clickBack. destruct ((step s =? 1)%Z || isLoading s).
    + symmetry. apply setStep_same.
    + destruct s; reflexivity.
Qed.

Lemma clickBack_undoes_clickNext_witness :
  let s := setUploadedFile (Some (mkFile "notes.pdf" "application/pdf" 1024)) initialState in
  clickBack (clickNext s) = s.
Proof.
  intros s. destruct (clickBack_undoes_clickNext s) as (H & _).
  apply H; [cbn; lia | reflexivity | reflexivity].
Defined.

(** A generation stopped by a guard sends nothing and only sets the
    message: without a file "Please upload a file to generate questions
    from.", else with no question requested "Please select at least one
    question to generate."; whatever the service would have answered, the
    step, the loading flag and, unlike after a failed request, the
    questions held are as before. *)
Theorem handleGenerate_blocked (o : Outcome) (s : State) :
  (uploadedFile s = None ->
     handleGenerate o s
     = setError (Some "Please upload a file to generate questions from.") s)
  /\ (uploadedFile s <> None -> totalNumQuestions s = 0%nat ->
      handleGenerate o s
      = setError (Some "Please select at least one question to generate.") s)
  /\ (uploadedFile s = None \/ totalNumQuestions s = 0%nat ->
      issuesRequest (handleGenerate_begin s) = false
      /\ generatedQuestions (handleGenerate o s) = generatedQuestions s
      /\ step (handleGenerate o s) = step s
      /\ isLoading (handleGenerate o s) = isLoading s).
Proof.
  unfold handleGenerate, handleGenerate_begin.
  destruct (uploadedFile s) as [f|];
    destruct (Nat.eqb_spec (totalNumQuestions s) 0) as [E|E];
    repeat split; intros; try reflexivity; try congruence;
    try match goal with H : _ \/ _ |- _ => destruct H; congruence end.
Qed.

Lemma handleGenerate_blocked_witness :
  let q := mkGeneratedQuestion 0 "What is a cell?" accepted text None None in
  let s := mkState 4 None "" Medium (mkNumQuestions 5 0 0) (mkBloomWeights 20 20 20 20 10 10)
             false None [q] all false in
  generatedQuestions (handleGenerate (ResponseOk []) s) = [q]
  /\ error (handleGenerate (ResponseOk []) s)
     = Some "Please upload a file to generate questions from.".
Proof.
  intros q s.
  destruct (handleGenerate_blocked (ResponseOk []) s) as (Hmsg & _ & H).
  destruct H as (_ & Hq & _); [left; reflexivity|].
  split; [exact Hq|]. rewrite Hmsg; reflexivity.
Defined.

(** A successful generation supersedes whatever the previous run left: run
    after any earlier run, failed or not, it ends in the same state as when
    run at once, with all questions pending again.  A failed request is so
    fully retryable, and statuses given before a regeneration are lost. *)
Theorem handleGenerate_supersedes (o : Outcome) (data : list ApiGeneratedQuestionItem)
    (s : State) :
  uploadedFile s <> None -> (0 < totalNumQuestions s)%nat ->
  handleGenerate (ResponseOk data) (handleGenerate o s)
  = handleGenerate (ResponseOk data) s
  /\ (forall id status,
        handleGenerate (ResponseOk data) (updateQuestionStatus id status s)
        = handleGenerate (ResponseOk data) s).
Proof.
  intros Hf Hn.
  assert (Hpre : forall s0, uploadedFile s0 = uploadedFile s ->
                            numQuestions s0 = numQuestions s ->
                            handleGenerate_begin s0
                            = InFlight (setGeneratedQuestions []
                                          (setError None (setIsLoading true s0)))).
  { intros s0 H1 H2. apply handleGenerate_begin_in_flight.
    - rewrite H1. exact Hf.
    - unfold totalNumQuestions in *. rewrite H2. exact Hn. }
  split.
  - unfold handleGenerate at 1 3. rewrite (Hpre s eq_refl eq_refl).
    rewrite Hpre.
    + unfold handleGenerate. rewrite (Hpre s eq_refl eq_refl).
      destruct s; destruct o as [[m|]|et st|d]; reflexivity.
    + unfold handleGenerate. rewrite (Hpre s eq_refl eq_refl).
      destruct s; destruct o as [[m|]|et st|d]; reflexivity.
    + unfold handleGenerate. rewrite (Hpre s eq_refl eq_refl).
      destruct s; destruct o as [[m|]|et st|d]; reflexivity.
  - intros id status. unfold handleGenerate.
    rewrite (Hpre s eq_refl eq_refl).
    rewrite Hpre; [|destruct s; reflexivity|destruct s; reflexivity].
    destruct s; reflexivity.
Qed.

Lemma handleGenerate_supersedes_witness :
  let s := mkState 3 (Some (mkFile "notes.pdf" "application/pdf" 1024)) "" Medium
             (mkNumQuestions 5 0 0) (mkBloomWeights 20 20 20 20 10 10)
             false None [] all false in
  handleGenerate (ResponseOk [ApiText "What is a cell?"])
    (handleGenerate (Rejected ThrownOther) s)
  = handleGenerate (ResponseOk [ApiText "What is a cell?"]) s.
Proof.
  intros s.
  assert (H1 : uploadedFile s <> None) by discriminate.
  assert (H2 : (0 < totalNumQuestions s)%nat) by (cbn; lia).
  destruct (handleGenerate_supersedes (Rejected ThrownOther)
              [ApiText "What is a cell?"] s H1 H2) as [H _].
  exact H.
Defined.

End Configuration.

(** ** QuestionGenerator: weights and counts *)

Section WeightsAndCounts.

Import QuestionGenerator Spec.

Local Open Scope string_scope.

(** A weight change stores the value as given, without clamping or
    rescaling the others: reading the changed category gives the value,
    reading any other gives what it held, and the total moves by the
    difference between the new and the old value.  Nothing but the weights
    changes. *)
Theorem handleWeightChange_total (category : BloomCategory) (value : Q) (s : State) :
  let s' := handleWeightChange category value s in
  get (bloomWeights s') category = value
  /\ (forall c, c <> category -> get (bloomWeights s') c = get (bloomWeights s) c)
  /\ (totalWeight s' == totalWeight s - get (bloomWeights s) category + value)%Q
  /\ s' = setBloomWeights (bloomWeights s') s.
Proof.
  cbv zeta. unfold handleWeightChange.
  destruct s as [? ? ? ? ? [r u a n e k] ? ? ? ? ?].
  cbn [bloomWeights setBloomWeights]. split; [destruct category; reflexivity|].
  split; [intros c Hc; destruct category, c; try reflexivity; destruct (Hc eq_refl)|].
  split; [|reflexivity].
  unfold totalWeight, JS.reduce, Object_values, Object_keys.
  destruct category; cbn; ring.
Qed.

Lemma handleWeightChange_total_witness :
  (totalWeight (handleWeightChange Creating 0 initialState) == 90)%Q.
Proof.
  destruct (handleWeightChange_total Creating 0 initialState) as (_ & _ & H & _).
  rewrite H. reflexivity.
Defined.

(** The initial weights and each of the three presets total 100.  A preset
    overwrites all six weights whatever they were, so after one the weight
    total never blocks generation: at step 3 the Generate control is
    disabled exactly when a request is in flight or no question is
    requested. *)
Theorem applyWeightPreset_total (preset : Preset) (s : State) :
  (totalWeight initialState == 100)%Q
  /\ (totalWeight (applyWeightPreset preset s) == 100)%Q
  /\ (forall s0, bloomWeights (applyWeightPreset preset s0)
                 = bloomWeights (applyWeightPreset preset s))
  /\ generateDisabled (applyWeightPreset preset s)
     = (isLoading s || (totalNumQuestions s =? 0)%nat).
Proof.
  split; [reflexivity|].
  split; [destruct preset; reflexivity|].
  split; [intros s0; destruct preset; reflexivity|].
  unfold generateDisabled. destruct s, preset; reflexivity.
Qed.

(** The requested total is the sum of the three counts, so it is 0 exactly
    when all three are 0; a count change moves it by the difference; and at
    step 2 the Next control is disabled exactly when all three counts are
    0. *)
Theorem totalNumQuestions_zero (s : State) :
  totalNumQuestions s
  = (nq_text (numQuestions s) + nq_trueFalse (numQuestions s) + nq_mcq (numQuestions s))%nat
  /\ (totalNumQuestions s = 0%nat <->
      nq_text (numQuestions s) = 0%nat /\ nq_trueFalse (numQuestions s) = 0%nat
      /\ nq_mcq (numQuestions s) = 0%nat)
  /\ (forall type value,
        (totalNumQuestions (handleNumQuestionChange type value s)
         + match type with
           | key_text => nq_text (numQuestions s)
           | key_trueFalse => nq_trueFalse (numQuestions s)
           | key_mcq => nq_mcq (numQuestions s)
           end
         = totalNumQuestions s + value)%nat)
  /\ (step s = 2%Z ->
      (nextDisabled s = true <->
       nq_text (numQuestions s) = 0%nat /\ nq_trueFalse (numQuestions s) = 0%nat
       /\ nq_mcq (numQuestions s) = 0%nat)).
Proof.
  assert (Ht : totalNumQuestions s
               = (nq_text (numQuestions s) + nq_trueFalse (numQuestions s)
                  + nq_mcq (numQuestions s))%nat) by reflexivity.
  split; [exact Ht|]. split; [rewrite Ht; lia|]. split.
  - intros type value. destruct s as [? ? ? ? [t f m] ? ? ? ? ? ?].
    destruct type; cbn; lia.
  - intros Hs. unfold nextDisabled. rewrite Hs. cbn [Z.eqb Pos.eqb andb orb].
    rewrite Nat.eqb_eq, Ht. lia.
Qed.

Lemma totalNumQuestions_zero_witness :
  let s := setStep 2 (setNumQuestions (mkNumQuestions 0 0 0) initialState) in
  nextDisabled s = true.
Proof.
  intros s. destruct (totalNumQuestions_zero s) as (_ & _ & _ & H).
  apply H; [reflexivity|]. repeat split; reflexivity.
Defined.

(** The mapper loses nothing of a recognized item: two items mapped to the
    same question, at whatever positions, are the same item at the same
    position. *)
Theorem toQuestion_injective (a b : ApiGeneratedQuestionItem) (i j : nat)
    (q : GeneratedQuestion) :
  toQuestion a i = Some q -> toQuestion b j = Some q -> a = b /\ i = j.
Proof.
  destruct a as [ta|[qa aa]|[qa oa aa]|], b as [tb|[qb ab]|[qb ob ab]|]; cbn;
    intros Ha Hb; rewrite <- Ha in Hb; inversion Hb; subst; try discriminate; auto.
Qed.

Lemma toQuestion_injective_witness :
  ApiTrueFalse (mkApiTFInfo "Water boils at 100 C." true)
  = ApiTrueFalse (mkApiTFInfo "Water boils at 100 C." true)
  /\ 3%nat = 3%nat.
Proof.
  apply (toQuestion_injective
           (ApiTrueFalse (mkApiTFInfo "Water boils at 100 C." true))
           (ApiTrueFalse (mkApiTFInfo "Water boils at 100 C." true)) 3 3
           (mkGeneratedQuestion 3 "Water boils at 100 C." pending TrueFalse None
              (Some (AnswerBoolean true))));
    reflexivity.
Defined.

End WeightsAndCounts.

(** ** QuestionGenerator: what holds in every reachable state *)

Section Reachable.

Import QuestionGenerator Workflow Spec Terms.

Local Open Scope string_scope.

(** An event that leaves the step, the file, the flags of the request and
    the questions alone keeps the invariant. *)
Lemma invariant_frame (s s' : State) :
  step s' = step s -> uploadedFile s' = uploadedFile s ->
  isLoading s' = isLoading s -> error s' = error s ->
  generatedQuestions s' = generatedQuestions s ->
  invariant s -> invariant s'.
Proof.
  unfold invariant. intros -> -> -> -> ->. tauto.
Qed.

Ltac by_file Hf :=
  try match goal with
      | H : _ = Some _ |- _ => destruct (Hf _ H); assumption
      end.

Lemma toQuestion_wellShaped (item : ApiGeneratedQuestionItem) (i : nat) (q : GeneratedQuestion) :
  toQuestion item i = Some q -> wellShaped q.
Proof.
  destruct item; cbn; intros H; inversion H; subst; unfold wellShaped; cbn; eauto.
Qed.

Lemma mapResponse_wellShaped (data : list ApiGeneratedQuestionItem) :
  Forall wellShaped (mapResponse data).
Proof.
  apply Forall_forall. intros q Hq. change (In q (mapFrom 0 data)) in Hq.
  apply mapFrom_In in Hq. destruct Hq as (k & item & _ & Hq).
  apply (toQuestion_wellShaped item _ q Hq).
Qed.

Lemma updateQuestionStatus_invariant (id : nat) (status : QuestionStatus) (s : State) :
  invariant s -> invariant (updateQuestionStatus id status s).
Proof.
  unfold invariant. intros (Hs & Hi & Hw & Hf & Hl).
  rewrite updateQuestionStatus_ids.
  destruct s as [st fl ui ql nq bw ld er qs rf mo].
  unfold updateQuestionStatus. cbn [step generatedQuestions uploadedFile isLoading error
    setGeneratedQuestions] in *.
  split; [exact Hs|]. split; [exact Hi|]. split; [|split; [exact Hf|]].
  - apply Forall_forall. intros q Hq. apply in_map_iff in Hq.
    destruct Hq as (q0 & <- & Hq0).
    pose proof (proj1 (Forall_forall _ _) Hw q0 Hq0) as Hw0.
    destruct (gq_id q0 =? id)%nat; [|exact Hw0].
    unfold wellShaped in *. cbn. exact Hw0.
  - intros H. destruct (Hl H) as [-> ->]. split; reflexivity.
Qed.

Lemma includes_pdf (t : string) :
  JS.includes ["application/pdf"] t = true -> t = "application/pdf".
Proof.
  unfold JS.includes. cbn [existsb]. rewrite orb_false_r. apply String.eqb_eq.
Qed.

Lemma handleGenerate_begin_invariant (s : State) :
  isLoading s = false -> invariant s ->
  invariant (afterStart (handleGenerate_begin s)).
Proof.
  intros Hld. unfold invariant, handleGenerate_begin. intros (Hs & Hi & Hw & Hf & Hl).
  destruct s as [st fl ui ql nq bw ld er qs rf mo].
  cbn [step generatedQuestions uploadedFile isLoading error] in *. subst ld.
  destruct fl as [f|]; [destruct (totalNumQuestions _ =? 0)%nat|];
    cbn; repeat split; auto; try discriminate; try constructor; try lia; by_file Hf.
Qed.

Lemma handleGenerate_settle_invariant (o : Outcome) (s : State) :
  invariant s -> invariant (handleGenerate_settle o s).
Proof.
  unfold invariant, handleGenerate_settle. intros (Hs & Hi & Hw & Hf & Hl).
  destruct s as [st fl ui ql nq bw ld er qs rf mo].
  cbn [step generatedQuestions uploadedFile isLoading error] in *.
  destruct o as [[m|]|et sx|data]; cbn; repeat split; auto; try discriminate; try lia;
    by_file Hf.
  - apply mapFrom_sorted.
  - apply mapResponse_wellShaped.
Qed.

Lemma react_invariant (e : Event) (s : State) :
  invariant s -> invariant (react e s).
Proof.
  intros Hinv. destruct e; cbn [react].
  - (* FileChange *)
    destruct (step s =? 1)%Z; [|exact Hinv].
    unfold invariant in *. destruct Hinv as (Hs & Hi & Hw & Hf & Hl).
    destruct s as [st fl ui ql nq bw ld er qs rf mo].
    cbn [step generatedQuestions uploadedFile isLoading error setUploadedFile] in *.
    repeat split; auto; try lia.
    + apply handleFileChange_validated in H. destruct H as (Ht & _).
      apply includes_pdf, Ht.
    + apply handleFileChange_validated in H. destruct H as (_ & Hle & _). exact Hle.
    + apply Hl, H.
    + apply Hl, H.
  - destruct (step s =? 2)%Z; [|exact Hinv].
    apply (invariant_frame s); try exact Hinv; destruct s, type; reflexivity.
  - destruct (step s =? 2)%Z; [|exact Hinv].
    apply (invariant_frame s); try exact Hinv; destruct s; reflexivity.
  - destruct (step s =? 2)%Z; [|exact Hinv].
    apply (invariant_frame s); try exact Hinv; destruct s; reflexivity.
  - destruct (step s =? 3)%Z; [|exact Hinv].
    apply (invariant_frame s); try exact Hinv; destruct s; reflexivity.
  - destruct (step s =? 3)%Z; [|exact Hinv].
    apply (invariant_frame s); try exact Hinv; destruct s, preset; reflexivity.
  - destruct (step s =? 4)%Z; [|exact Hinv].
    apply (invariant_frame s); try exact Hinv; destruct s; reflexivity.
  - destruct ((step s =? 4)%Z && shown id s); [|exact Hinv].
    apply updateQuestionStatus_invariant, Hinv.
  - destruct ((step s =? 4)%Z && shown id s); [|exact Hinv].
    apply updateQuestionStatus_invariant, Hinv.
  - destruct ((step s =? 4)%Z && negb (List.length (acceptedQuestions s) =? 0)%nat);
      [|exact Hinv].
    apply (invariant_frame s); try exact Hinv; destruct s; reflexivity.
  - destruct (step s =? 4)%Z; [|exact Hinv].
    apply (invariant_frame s); try exact Hinv; destruct s; reflexivity.
  - destruct ((step s =? 4)%Z && isExportMenuOpen s); [|exact Hinv].
    unfold handleExportTXT. destruct (acceptedQuestions s); [exact Hinv|].
    apply (invariant_frame s); try exact Hinv; destruct s; reflexivity.
  - destruct ((step s =? 4)%Z && isExportMenuOpen s); [|exact Hinv].
    unfold handleExportPDF. destruct (acceptedQuestions s); [exact Hinv|].
    apply (invariant_frame s); try exact Hinv; destruct s; reflexivity.
  - (* Back *)
    unfold clickBack. destruct ((step s =? 1)%Z || isLoading s); [exact Hinv|].
    unfold invariant in *. destruct Hinv as (Hs & Hi & Hw & Hf & Hl).
    destruct s as [st fl ui ql nq bw ld er qs rf mo].
    cbn [step generatedQuestions uploadedFile isLoading error setStep] in *.
    repeat split; auto; try lia; by_file Hf; apply Hl; assumption.
  - (* Next *)
    unfold clickNext. destruct (Z.ltb_spec (step s) 3) as [Hlt|_]; [|exact Hinv].
    destruct (negb (nextDisabled s)); [|exact Hinv]. cbn [andb].
    unfold invariant in *. destruct Hinv as (Hs & Hi & Hw & Hf & Hl).
    destruct s as [st fl ui ql nq bw ld er qs rf mo].
    cbn [step generatedQuestions uploadedFile isLoading error setStep] in *.
    repeat split; auto; try lia; by_file Hf; apply Hl; assumption.
  - (* Generate *)
    unfold clickGenerate, generateDisabled.
    destruct (step s =? 3)%Z; [|exact Hinv].
    destruct (isLoading s) eqn:Hld;
      [rewrite orb_true_r; cbn [negb andb afterStart]; exact Hinv|].
    destruct (negb _); [|exact Hinv]. cbn [andb].
    apply handleGenerate_begin_invariant; assumption.
  - (* Regenerate *)
    unfold clickRegenerate.
    destruct (step s =? 4)%Z; [|exact Hinv].
    destruct (isLoading s) eqn:Hld; [exact Hinv|]. cbn [negb andb].
    apply handleGenerate_begin_invariant; assumption.
  - (* StartOver *)
    unfold clickStartOver. destruct (step s =? 4)%Z; [|exact Hinv].
    unfold invariant in *. destruct Hinv as (Hs & Hi & Hw & Hf & Hl).
    destruct s as [st fl ui ql nq bw ld er qs rf mo].
    cbn [step generatedQuestions uploadedFile isLoading error setStep setUploadedFile
           setGeneratedQuestions map] in *.
    repeat split; auto; try lia; try constructor; try discriminate.
    apply Hl; assumption.
  - (* Settle *)
    destruct (isLoading s); [|exact Hinv].
    apply handleGenerate_settle_invariant, Hinv.
Qed.

Lemma initial_invariant : invariant initialState.
Proof.
  unfold invariant. cbn. repeat split; try lia; try constructor; discriminate.
Qed.

Lemma run_invariant (events : list Event) :
  forall s, invariant s -> invariant (run events s).
Proof.
  induction events as [|e events IH]; intros s H; [exact H|].
  cbn [run]. apply IH, react_invariant, H.
Qed.

Lemma reachable_invariant (s : State) : reachable s -> invariant s.
Proof.
  intros [events ->]. apply run_invariant, initial_invariant.
Qed.

(** Whatever the user does, the step stays one of 1, 2, 3 and 4. *)
Theorem reachable_step_range (s : State) :
  reachable s -> (1 <= step s <= 4)%Z.
Proof.
  intros H. apply reachable_invariant in H. apply H.
Qed.

Lemma reachable_step_range_witness :
  (1 <= step (run [FileChange (Some [mkFile "notes.pdf" "application/pdf" 1024]);
                   Next; Next; Next; Back; Back; Back; Back] initialState) <= 4)%Z.
Proof.
  exact (reachable_step_range _ (ex_intro _ _ eq_refl)).
Defined.

Lemma sorted_lt_NoDup (l : list nat) : StronglySorted lt l -> NoDup l.
Proof.
  induction 1 as [|n l _ IH Hall]; constructor; [|exact IH].
  intros Hin. apply (proj1 (Forall_forall _ _) Hall) in Hin. lia.
Qed.

Lemma NoDup_map_injective {A B} (f : A -> B) (l : list A) :
  NoDup (map f l) -> forall x y, In x l -> In y l -> f x = f y -> x = y.
Proof.
  induction l as [|a l IH]; cbn [map]; intros Hnd x y Hx Hy Hxy; [destruct Hx|].
  inversion Hnd as [|? ? Hnotin Hnd']; subst.
  destruct Hx as [<-|Hx], Hy as [<-|Hy]; auto.
  - exfalso. apply Hnotin. rewrite Hxy. apply in_map, Hy.
  - exfalso. apply Hnotin. rewrite <- Hxy. apply in_map, Hx.
Qed.

(** In every reachable state the ids of the questions held increase
    strictly along the list, so no two questions share an id: the Accept and
    Discard controls of a card act on that card's question alone. *)
Theorem reachable_ids_distinct (s : State) :
  reachable s ->
  StronglySorted lt (map gq_id (generatedQuestions s))
  /\ NoDup (map gq_id (generatedQuestions s))
  /\ (forall q q', In q (generatedQuestions s) -> In q' (generatedQuestions s) ->
        gq_id q = gq_id q' -> q = q')
  /\ (forall q q' status,
        In q (generatedQuestions s) -> In q' (generatedQuestions s) -> q' <> q ->
        In q' (generatedQuestions (updateQuestionStatus (gq_id q) status s))).
Proof.
  intros H. apply reachable_invariant in H. destruct H as (_ & Hsorted & _).
  pose proof (sorted_lt_NoDup _ Hsorted) as Hnd.
  pose proof (NoDup_map_injective gq_id _ Hnd) as Hinj.
  split; [exact Hsorted|]. split; [exact Hnd|]. split; [exact Hinj|].
  intros q q' status Hq Hq' Hne. unfold updateQuestionStatus.
  destruct s as [st fl ui ql nq bw ld er qs rf mo].
  cbn [generatedQuestions setGeneratedQuestions] in *.
  apply in_map_iff. exists q'. split; [|exact Hq'].
  destruct (Nat.eqb_spec (gq_id q') (gq_id q)) as [E|_]; [|reflexivity].
  destruct (Hne (Hinj q' q Hq' Hq E)).
Qed.

Lemma reachable_ids_distinct_witness :
  let s := run [FileChange (Some [mkFile "notes.pdf" "application/pdf" 1024]);
                Next; Next; Generate;
                Settle (ResponseOk [ApiText "What is a cell?"; ApiUnrecognized;
                                    ApiText "What is a tissue?"]);
                Accept 2] initialState in
  NoDup (map gq_id (generatedQuestions s)) /\ map gq_id (generatedQuestions s) = [0; 2]%nat.
Proof.
  intros s. split; [|reflexivity].
  assert (H : reachable s) by (eexists; reflexivity).
  destruct (reachable_ids_distinct s H) as (_ & Hnd & _). exact Hnd.
Defined.

(** In every reachable state a file held is a PDF of at most 10 MB: no
    other file can reach the Generate request. *)
Theorem reachable_file_valid (s : State) (f : File) :
  reachable s -> uploadedFile s = Some f ->
  f_type f = "application/pdf" /\ (f_size f <= 10 * 1024 * 1024)%N.
Proof.
  intros H Hf. apply reachable_invariant in H. destruct H as (_ & _ & _ & Hv & _).
  apply (Hv f Hf).
Qed.

Lemma reachable_file_valid_witness :
  let s := run [FileChange (Some [mkFile "scan.png" "image/png" 1024]);
                FileChange (Some [mkFile "notes.pdf" "application/pdf" 1024]);
                Next] initialState in
  uploadedFile s = Some (mkFile "notes.pdf" "application/pdf" 1024)
  /\ f_type (mkFile "notes.pdf" "application/pdf" 1024) = "application/pdf".
Proof.
  intros s. split; [reflexivity|].
  assert (H : reachable s) by (eexists; reflexivity).
  destruct (reachable_file_valid s (mkFile "notes.pdf" "application/pdf" 1024) H eq_refl)
    as [Ht _].
  exact Ht.
Defined.

(** While a request is in flight, in any reachable state, no question is
    held (so none is shown or accepted and the export control is disabled)
    and the generator's own error message, its [error] state, is null.
    The file uploader keeps an error message of its own, which this does
    not speak of. *)
Theorem reachable_loading_state (s : State) :
  reachable s -> isLoading s = true ->
  generatedQuestions s = [] /\ acceptedQuestions s = [] /\ filteredQuestions s = []
  /\ error s = None.
Proof.
  intros H Hl. apply reachable_invariant in H. destruct H as (_ & _ & _ & _ & H).
  destruct (H Hl) as [Hq He]. unfold acceptedQuestions, filteredQuestions.
  rewrite Hq. destruct (reviewFilter s); auto.
Qed.

Lemma reachable_loading_state_witness :
  let s := run [FileChange (Some [mkFile "notes.pdf" "application/pdf" 1024]);
                Next; Next; Generate;
                Settle (ResponseOk [ApiText "What is a cell?"]);
                Accept 0; Regenerate] initialState in
  isLoading s = true /\ generatedQuestions s = [].
Proof.
  intros s. split; [reflexivity|].
  assert (H : reachable s) by (eexists; reflexivity).
  destruct (reachable_loading_state s H eq_refl) as (Hq & _). exact Hq.
Defined.

Lemma string_append_assoc (a b c : string) : (a ++ b) ++ c = a ++ b ++ c.
Proof.
  induction a as [|x a IH]; cbn [append]; [reflexivity|]. rewrite IH. reflexivity.
Qed.

(** Start Over does not cancel a request in flight.  Pressed at step 4
    while a regeneration is pending, it returns to step 1 without a file and
    leaves loading on; when the response then arrives the review step opens
    on the new questions although no file is held, and Regenerate All there
    only reports the missing file. *)
Theorem startOver_keeps_request (s : State) (data : list ApiGeneratedQuestionItem) :
  step s = 4%Z -> isLoading s = true ->
  let s1 := react StartOver s in
  let s2 := react (Settle (ResponseOk data)) s1 in
  step s1 = 1%Z /\ uploadedFile s1 = None /\ isLoading s1 = true
  /\ step s2 = 4%Z /\ uploadedFile s2 = None /\ isLoading s2 = false
  /\ generatedQuestions s2 = mapResponse data
  /\ react Regenerate s2
     = setError (Some "Please upload a file to generate questions from.") s2.
Proof.
  intros Hs Hl. destruct s as [st fl ui ql nq bw ld er qs rf mo].
  cbn [step isLoading] in Hs, Hl. subst st ld. cbn. repeat split; reflexivity.
Qed.

Lemma startOver_keeps_request_witness :
  let s := run [FileChange (Some [mkFile "notes.pdf" "application/pdf" 1024]);
                Next; Next; Generate;
                Settle (ResponseOk [ApiText "What is a cell?"]);
                Regenerate] initialState in
  let s2 := react (Settle (ResponseOk [ApiText "What is a tissue?"])) (react StartOver s) in
  reachable s2 /\ step s2 = 4%Z /\ uploadedFile s2 = None.
Proof.
  intros s s2. split.
  - exists [FileChange (Some [mkFile "notes.pdf" "application/pdf" 1024]);
            Next; Next; Generate;
            Settle (ResponseOk [ApiText "What is a cell?"]);
            Regenerate; StartOver; Settle (ResponseOk [ApiText "What is a tissue?"])].
    subst s2 s. cbn [run]. reflexivity.
  - destruct (startOver_keeps_request s [ApiText "What is a tissue?"] eq_refl eq_refl)
      as (_ & _ & _ & H4 & Hf & _).
    split; [exact H4|exact Hf].
Defined.

End Reachable.

(** ** QuestionGenerator: layout of the exports *)

Section Layout.

Import QuestionGenerator Workflow Spec Terms.

Local Open Scope string_scope.

(** Up to 26 options the label of an option is one lowercase letter, a for
    the first and z for the twenty-sixth, and different options get
    different letters. *)
Theorem option_letters (i : nat) :
  (i < 26)%nat ->
  JS.fromCharCode (97 + Z.of_nat i) = String (ascii_of_nat (97 + i)) EmptyString
  /\ (97 <= nat_of_ascii (ascii_of_nat (97 + i)) <= 122)%nat
  /\ (forall j, (j < 26)%nat ->
        JS.fromCharCode (97 + Z.of_nat i) = JS.fromCharCode (97 + Z.of_nat j) -> i = j).
Proof.
  intros Hi.
  assert (Hletter : forall k, (k < 26)%nat ->
            JS.fromCharCode (97 + Z.of_nat k) = String (ascii_of_nat (97 + k)) EmptyString).
  { intros k Hk. do 26 (destruct k as [|k]; [reflexivity|]). lia. }
  assert (Hcode : forall k, (k < 26)%nat -> nat_of_ascii (ascii_of_nat (97 + k)) = (97 + k)%nat).
  { intros k Hk. apply nat_ascii_embedding. lia. }
  split; [apply Hletter, Hi|]. split; [rewrite (Hcode i Hi); lia|].
  intros j Hj E. rewrite (Hletter i Hi), (Hletter j Hj) in E.
  assert (E' : nat_of_ascii (ascii_of_nat (97 + i)) = nat_of_ascii (ascii_of_nat (97 + j)))
    by (f_equal; congruence).
  rewrite (Hcode i Hi), (Hcode j Hj) in E'. lia.
Qed.

Lemma option_letters_witness :
  JS.fromCharCode (97 + Z.of_nat 25) = "z".
Proof.
  destruct (option_letters 25) as (H & _); [lia|]. rewrite H. reflexivity.
Defined.

(** A block that fits between the margins of an empty page is never drawn
    across the bottom margin: after the check the cursor is at or below the
    top margin and the block ends at or above the bottom margin. *)
Theorem checkPageBreak_block_fits (margin pageHeight neededHeight : Q) (d : Pdf) :
  (neededHeight <= pageHeight - 2 * margin)%Q -> (margin <= yPos d)%Q ->
  let d' := checkPageBreak margin pageHeight neededHeight d in
  (margin <= yPos d')%Q /\ (yPos d' + neededHeight <= pageHeight - margin)%Q.
Proof.
  intros Hfit Htop. cbv zeta. unfold checkPageBreak.
  destruct (JS.gt (yPos d + neededHeight) (pageHeight - margin)) eqn:E.
  - cbn [yPos]. split; lra.
  - apply gt_false in E. split; [exact Htop|exact E].
Qed.

Lemma checkPageBreak_block_fits_witness :
  let d := mkPdf [] (mkFont "helvetica" "normal" 12) 270 in
  (yPos (checkPageBreak 15 297 14 d) + 14 <= 297 - 15)%Q.
Proof.
  intros d.
  destruct (checkPageBreak_block_fits 15 297 14 d) as [_ H];
    [cbn; lra | cbn; lra | exact H].
Defined.

Variables pageHeight pageWidth : Q.
Variable splitTextToSize : Font -> string -> Q -> list string.

Lemma extent_nonneg (lines : list string) (h : Q) :
  (0 <= h)%Q -> (0 <= extent lines h)%Q.
Proof.
  intros Hh. unfold extent. apply Qmult_le_0_compat; [|exact Hh].
  change 0%Q with (inject_Z 0). rewrite <- Zle_Qle. lia.
Qed.

Lemma settled_advanceY (dy : Q) (d : Pdf) :
  (0 <= dy)%Q -> settled d -> settled (advanceY dy d).
Proof.
  intros Hdy [Hy Hops]. split; [cbn [advanceY yPos]; lra|exact Hops].
Qed.

Lemma settled_font (name style : string) (size : Q) (d : Pdf) :
  settled d -> settled (setFontSize size (setFont name style d)).
Proof. intros H. exact H. Qed.

Lemma settled_block (lines : list string) (x h : Q) (centered : bool) (d : Pdf) :
  (0 <= h)%Q -> settled d ->
  let d1 := checkPageBreak margin pageHeight h d in
  settled (emit (drawText (font d1) lines x (yPos d1) centered) d1).
Proof.
  intros Hh [Hy Hops]. cbv zeta. unfold checkPageBreak, emit, settled, placedBelow in *.
  destruct (JS.gt (yPos d + h) (pageHeight - margin)); cbn [ops yPos font].
  - split; [lra|]. rewrite <- app_assoc. apply Forall_app. split; [exact Hops|].
    repeat constructor. lra.
  - split; [exact Hy|]. apply Forall_app. split; [exact Hops|].
    repeat constructor. exact Hy.
Qed.

Lemma forEachi_from_preserves {A} (P : Pdf -> Prop) (body : Pdf -> A -> nat -> Pdf)
    (arr : list A) :
  (forall d x i, P d -> P (body d x i)) ->
  forall i d, P d -> P (JS.forEachi_from i body arr d).
Proof.
  intros Hbody. induction arr as [|x arr IH]; intros i d Hd; [exact Hd|].
  cbn [JS.forEachi_from]. apply IH, Hbody, Hd.
Qed.

Lemma settled_drawOption (d : Pdf) (opt : string) (i : nat) :
  settled d -> settled (drawOption pageHeight pageWidth splitTextToSize d opt i).
Proof.
  intros H. unfold drawOption.
  apply settled_advanceY; [apply extent_nonneg; lra|].
  apply (settled_block _ _ (extent _ 7)); [apply extent_nonneg; lra|exact H].
Qed.

Lemma settled_drawQuestion (d : Pdf) (q : GeneratedQuestion) (index : nat) :
  settled d -> settled (drawQuestion pageHeight pageWidth splitTextToSize d q index).
Proof.
  intros H. unfold drawQuestion.
  apply settled_advanceY; [lra|].
  match goal with
  | |- settled (match gq_answer q with Some _ => _ | None => ?d0 end) =>
      assert (H0 : settled d0)
  end.
  { destruct (gq_question_type q), (gq_options q);
      try (apply settled_advanceY; [apply extent_nonneg; lra|];
           apply (settled_block _ _ (extent _ 7)); [apply extent_nonneg; lra|exact H]).
    unfold JS.forEachi. apply forEachi_from_preserves; [apply settled_drawOption|].
    apply (settled_advanceY 2); [lra|].
    apply settled_advanceY; [apply extent_nonneg; lra|].
    apply (settled_block _ _ (extent _ 7)); [apply extent_nonneg; lra|exact H]. }
  destruct (gq_answer q) as [answer|]; [|exact H0].
  destruct (answerStringPDF q answer) as [|c rest]; [exact H0|].
  apply settled_advanceY; [apply extent_nonneg; lra|].
  apply (settled_block _ _ (extent _ 6)); [apply extent_nonneg; lra|].
  apply (settled_advanceY 3); [lra|exact H0].
Qed.

(** Whatever the page size and the line breaker, the paginated export
    places every block, the title included, at or below the top margin of
    15; it ends by saving the document. *)
Theorem handleExportPDF_below_top_margin (s : State) (operations : list PdfOp) :
  fst (handleExportPDF pageHeight pageWidth splitTextToSize s) = Some operations ->
  placedBelow 15 operations
  /\ exists drawn, operations = (drawn ++ [save "bloomsphere-questions.pdf"])%list.
Proof.
  unfold handleExportPDF. destruct (acceptedQuestions s) as [|q0 accepted]; [discriminate|].
  cbn [fst]. intros H. inversion H as [Hops]. clear H Hops.
  split; [|cbn [emit ops]; eexists; reflexivity].
  cbn [emit ops]. apply Forall_app. split; [|repeat constructor].
  unfold JS.forEachi.
  apply (forEachi_from_preserves settled); [apply settled_drawQuestion|].
  apply (settled_advanceY 15); [lra|].
  apply (settled_block _ _ 20); [lra|].
  split; [cbn; lra|constructor].
Qed.

Lemma drawCount_app (a b : list PdfOp) :
  drawCount (a ++ b) = (drawCount a + drawCount b)%nat.
Proof. unfold drawCount. rewrite filter_app, length_app. reflexivity. Qed.

Lemma pageCount_app (a b : list PdfOp) :
  pageCount (a ++ b) = (pageCount a + pageCount b)%nat.
Proof. unfold pageCount. rewrite filter_app, length_app. reflexivity. Qed.

Lemma grows_start (d : Pdf) : grows 0 d d.
Proof. unfold grows. lia. Qed.

Lemma grows_font (n : nat) (name style : string) (d X : Pdf) :
  grows n d X -> grows n d (setFont name style X).
Proof. intros H. exact H. Qed.

Lemma grows_fontSize (n : nat) (size : Q) (d X : Pdf) :
  grows n d X -> grows n d (setFontSize size X).
Proof. intros H. exact H. Qed.

Lemma grows_advanceY (n : nat) (dy : Q) (d X : Pdf) :
  grows n d X -> grows n d (advanceY dy X).
Proof. intros H. exact H. Qed.

Lemma grows_save (n : nat) (filename : string) (d X : Pdf) :
  grows n d X -> grows n d (emit (save filename) X).
Proof.
  unfold grows, emit. cbn [ops]. rewrite drawCount_app, pageCount_app. cbn. lia.
Qed.

Lemma grows_block (n : nat) (lines : list string) (x h : Q) (centered : bool) (d X : Pdf) :
  grows n d X ->
  grows (n + 1) d
    (emit (drawText (font (checkPageBreak margin pageHeight h X)) lines x
             (yPos (checkPageBreak margin pageHeight h X)) centered)
       (checkPageBreak margin pageHeight h X)).
Proof.
  unfold grows, checkPageBreak, emit.
  destruct (JS.gt (yPos X + h) (pageHeight - margin)); cbn [ops yPos font];
    rewrite ?drawCount_app, ?pageCount_app; cbn; lia.
Qed.

Lemma grows_count (n m : nat) (d d' : Pdf) : grows n d d' -> n = m -> grows m d d'.
Proof. intros H <-. exact H. Qed.

Lemma grows_forEachi {A} (w : A -> nat) (body : Pdf -> A -> nat -> Pdf) (arr : list A) :
  (forall n d X x i, grows n d X -> grows (n + w x) d (body X x i)) ->
  forall n d X i, grows n d X ->
                  grows (n + list_sum (map w arr)) d (JS.forEachi_from i body arr X).
Proof.
  intros Hbody. induction arr as [|x arr IH]; intros n d X i H; cbn [JS.forEachi_from].
  - change (list_sum (map w [])) with 0%nat. rewrite Nat.add_0_r. exact H.
  - change (list_sum (map w (x :: arr))) with (w x + list_sum (map w arr))%nat.
    rewrite Nat.add_assoc. apply IH, Hbody, H.
Qed.

Lemma list_sum_ones {A} (l : list A) : list_sum (map (fun _ => 1%nat) l) = List.length l.
Proof.
  induction l as [|x l IH]; [reflexivity|].
  change (list_sum (map (fun _ : A => 1%nat) (x :: l)))
    with (1 + list_sum (map (fun _ : A => 1%nat) l))%nat.
  cbn [List.length]. lia.
Qed.

Lemma grows_drawOption (n : nat) (d X : Pdf) (opt : string) (i : nat) :
  grows n d X -> grows (n + 1) d (drawOption pageHeight pageWidth splitTextToSize X opt i).
Proof.
  intros H. unfold drawOption. apply grows_advanceY, grows_block, H.
Qed.

Lemma grows_drawQuestion (n : nat) (d X : Pdf) (q : GeneratedQuestion) (index : nat) :
  grows n d X ->
  grows (n + blocksOf q) d (drawQuestion pageHeight pageWidth splitTextToSize X q index).
Proof.
  intros H. unfold drawQuestion, blocksOf. apply grows_advanceY.
  match goal with
  | |- grows _ d (match gq_answer q with Some _ => _ | None => ?dm end) =>
      assert (Hm : grows (n + (1 + match gq_question_type q, gq_options q with
                                   | MCQ, Some options => List.length options
                                   | _, _ => 0%nat
                                   end)) d dm)
  end.
  { assert (Hb : forall X0, X0 = setFontSize 12 (setFont "helvetica" "normal" X) ->
              forall lines,
                grows (n + 1) d
                  (advanceY (extent lines 7)
                     (emit (drawText (font (checkPageBreak margin pageHeight (extent lines 7) X0))
                              lines margin
                              (yPos (checkPageBreak margin pageHeight (extent lines 7) X0)) false)
                        (checkPageBreak margin pageHeight (extent lines 7) X0)))).
    { intros X0 -> lines. apply grows_advanceY, grows_block, grows_fontSize, grows_font, H. }
    destruct (gq_question_type q), (gq_options q) as [options|];
      try (eapply grows_count; [apply (Hb _ eq_refl)|lia]).
    unfold JS.forEachi. eapply grows_count.
    - apply (grows_forEachi (fun _ => 1%nat)); [intros; apply grows_drawOption; assumption|].
      apply grows_font, grows_advanceY, (Hb _ eq_refl).
    - rewrite list_sum_ones. lia. }
  destruct (gq_answer q) as [answer|]; [|eapply grows_count; [exact Hm|lia]].
  destruct (answerStringPDF q answer) as [|c rest]; [eapply grows_count; [exact Hm|lia]|].
  eapply grows_count.
  - apply grows_advanceY, grows_block, grows_fontSize, grows_font, grows_advanceY, Hm.
  - lia.
Qed.

Lemma drawn_app (a b : list PdfOp) : drawn (a ++ b) = (drawn a ++ drawn b)%list.
Proof. unfold drawn. apply flat_map_app. Qed.

Lemma In_drawn (f : Font) (lines : list string) (x : Q) (centered : bool)
    (operations : list PdfOp) :
  In (f, lines, x, centered) (drawn operations) ->
  exists y, In (drawText f lines x y centered) operations.
Proof.
  unfold drawn. intros H. apply in_flat_map in H. destruct H as (op & Hop & Hin).
  destruct op as [|f' l' x' y c'|fn]; cbn in Hin; try contradiction.
  destruct Hin as [E|[]]. inversion E; subst. exists y. exact Hop.
Qed.

Lemma font_checkPageBreak (m H h : Q) (d : Pdf) : font (checkPageBreak m H h d) = font d.
Proof. unfold checkPageBreak. destruct (JS.gt (yPos d + h) (H - m)); reflexivity. Qed.

Lemma draws_start (d : Pdf) : draws [] d d.
Proof. unfold draws. rewrite app_nil_r. reflexivity. Qed.

Lemma draws_font (bs : list Block) (name style : string) (d X : Pdf) :
  draws bs d X -> draws bs d (setFont name style X).
Proof. intros H. exact H. Qed.

Lemma draws_fontSize (bs : list Block) (size : Q) (d X : Pdf) :
  draws bs d X -> draws bs d (setFontSize size X).
Proof. intros H. exact H. Qed.

Lemma draws_advanceY (bs : list Block) (dy : Q) (d X : Pdf) :
  draws bs d X -> draws bs d (advanceY dy X).
Proof. intros H. exact H. Qed.

Lemma draws_eq (bs bs' : list Block) (d X : Pdf) : draws bs d X -> bs = bs' -> draws bs' d X.
Proof. intros H <-. exact H. Qed.

Lemma draws_block (bs : list Block) (lines : list string) (x h : Q) (centered : bool)
    (d X : Pdf) :
  draws bs d X ->
  draws (bs ++ [(font X, lines, x, centered)]) d
    (emit (drawText (font (checkPageBreak margin pageHeight h X)) lines x
             (yPos (checkPageBreak margin pageHeight h X)) centered)
       (checkPageBreak margin pageHeight h X)).
Proof.
  unfold draws. intros H. rewrite font_checkPageBreak. unfold checkPageBreak, emit.
  destruct (JS.gt (yPos X + h) (pageHeight - margin)); cbn [ops yPos font];
    rewrite ?drawn_app, H; cbn [drawn flat_map app]; rewrite ?app_nil_r, ?app_assoc;
    reflexivity.
Qed.

Lemma draws_forEachi {A} (Inv : Pdf -> Prop) (w : A -> nat -> list Block)
    (body : Pdf -> A -> nat -> Pdf) (arr : list A) :
  (forall bs d X x i, Inv X -> draws bs d X ->
                      draws (bs ++ w x i) d (body X x i) /\ Inv (body X x i)) ->
  forall bs d X i, Inv X -> draws bs d X ->
                   draws (bs ++ List.concat (JS.mapi_from i w arr)) d
                     (JS.forEachi_from i body arr X)
                   /\ Inv (JS.forEachi_from i body arr X).
Proof.
  intros Hbody. induction arr as [|x arr IH]; intros bs d X i HI H;
    cbn [JS.forEachi_from JS.mapi_from List.concat].
  - rewrite app_nil_r. split; assumption.
  - rewrite app_assoc. destruct (Hbody bs d X x i HI H) as [H' HI']. apply IH; assumption.
Qed.

Lemma concat_mapi_singletons {A B} (f : A -> nat -> B) (arr : list A) :
  forall i, List.concat (JS.mapi_from i (fun x i => [f x i]) arr) = JS.mapi_from i f arr.
Proof.
  induction arr as [|x arr IH]; intros i; cbn [JS.mapi_from List.concat app]; [reflexivity|].
  rewrite IH. reflexivity.
Qed.

Lemma mapi_from_nth {A B} (f : A -> nat -> B) (arr : list A) :
  forall k x i, nth_error arr k = Some x ->
                nth_error (JS.mapi_from i f arr) k = Some (f x (i + k)%nat).
Proof.
  induction arr as [|a arr IH]; intros [|k] x i H; cbn [nth_error] in H; try discriminate;
    cbn [JS.mapi_from nth_error].
  - inversion H. rewrite Nat.add_0_r. reflexivity.
  - rewrite (IH k x (S i) H). f_equal. f_equal. lia.
Qed.

Lemma mapi_from_length {A B} (f : A -> nat -> B) (arr : list A) :
  forall i, List.length (JS.mapi_from i f arr) = List.length arr.
Proof.
  induction arr as [|a arr IH]; intros i; cbn [JS.mapi_from List.length]; [reflexivity|].
  rewrite IH. reflexivity.
Qed.

Lemma In_concat_mapi {A B} (f : A -> nat -> list B) (arr : list A) (k : nat) (x : A) (b : B) :
  nth_error arr k = Some x -> In b (f x k) -> In b (List.concat (JS.mapi f arr)).
Proof.
  intros Hk Hb. apply in_concat. exists (f x k). split; [|exact Hb].
  apply (nth_error_In _ k). unfold JS.mapi. rewrite (mapi_from_nth f arr k x 0 Hk).
  reflexivity.
Qed.

Lemma string_append_nil_r (a : string) : a ++ "" = a.
Proof. induction a as [|c a IH]; cbn [append]; [reflexivity|]. rewrite IH. reflexivity. Qed.

Lemma join_contains (sep : string) (items : list string) :
  forall k item, nth_error items k = Some item ->
                 exists pre post, JS.join sep items = pre ++ item ++ post.
Proof.
  unfold JS.join. induction items as [|a items IH]; intros [|k] item H;
    cbn [nth_error] in H; try discriminate.
  - inversion H. subst a. destruct items as [|b items]; cbn [concat].
    + exists "", "". rewrite string_append_nil_r. reflexivity.
    + exists "", (sep ++ concat sep (b :: items)). reflexivity.
  - destruct items as [|b items]; [destruct k; discriminate|].
    destruct (IH k item H) as (pre & post & E).
    exists (a ++ sep ++ pre), post.
    change (concat sep (a :: b :: items)) with (a ++ sep ++ concat sep (b :: items)).
    rewrite E, !string_append_assoc. reflexivity.
Qed.

Lemma findIndex_from_never {A} (arr : list A) :
  forall base, JS.findIndex_from base (fun _ => false) arr = (-1)%Z.
Proof.
  induction arr as [|x arr IH]; intros base; cbn [JS.findIndex_from]; [reflexivity|].
  apply IH.
Qed.

Lemma answerLabelPDF_boolean (options : list string) (b : bool) :
  answerLabelPDF options (AnswerBoolean b) = JS.show_bool b.
Proof.
  unfold answerLabelPDF, JS.findIndex. cbn [strictEq].
  rewrite findIndex_from_never. reflexivity.
Qed.

Lemma answerLabelTXT_boolean (options : list string) (b : bool) :
  answerLabelTXT options (AnswerBoolean b) = JS.show_bool b.
Proof.
  unfold answerLabelTXT, JS.findIndex. cbn [strictEq].
  rewrite findIndex_from_never. reflexivity.
Qed.

(** The answer string the paginated export builds is the answer line of
    the question, and empty exactly when the question gets none. *)
Lemma answerStringPDF_answerLine (q : GeneratedQuestion) :
  match gq_answer q with
  | Some answer =>
      match answerLine q with
      | Some answerString =>
          answerStringPDF q answer = answerString /\ answerString <> ""
      | None => answerStringPDF q answer = ""
      end
  | None => answerLine q = None
  end.
Proof.
  unfold answerLine, answerStringPDF.
  destruct (gq_question_type q), (gq_options q) as [options|], (gq_answer q) as [[a|b]|];
    cbn [showAnswer]; rewrite ?answerLabelPDF_spec, ?answerLabelPDF_boolean;
    try reflexivity; split; try reflexivity; discriminate.
Qed.

Lemma draws_drawOption (bs : list Block) (d X : Pdf) (opt : string) (i : nat) :
  font X = mkFont "courier" "normal" 12 ->
  draws bs d X ->
  draws (bs ++ [optionBlock pageWidth splitTextToSize opt i]) d
    (drawOption pageHeight pageWidth splitTextToSize X opt i)
  /\ font (drawOption pageHeight pageWidth splitTextToSize X opt i)
     = mkFont "courier" "normal" 12.
Proof.
  intros Hf H. unfold drawOption. split.
  - apply draws_advanceY. eapply draws_eq; [apply draws_block, H|].
    rewrite Hf. reflexivity.
  - unfold advanceY, emit. cbn [font]. rewrite font_checkPageBreak. exact Hf.
Qed.

Lemma draws_drawQuestion (bs : list Block) (d X : Pdf) (q : GeneratedQuestion) (index : nat) :
  draws bs d X ->
  draws (bs ++ blocksFor pageWidth splitTextToSize q index) d
    (drawQuestion pageHeight pageWidth splitTextToSize X q index).
Proof.
  intros H. unfold drawQuestion, blocksFor. cbv zeta. apply draws_advanceY.
  match goal with
  | |- draws _ d (match gq_answer q with Some _ => _ | None => ?dm end) =>
      assert (Hm : draws (bs ++ [textBlock pageWidth splitTextToSize q index]
                          ++ match gq_question_type q, gq_options q with
                             | MCQ, Some options =>
                                 JS.mapi (optionBlock pageWidth splitTextToSize) options
                             | _, _ => []
                             end) d dm)
  end.
  { assert (Hb : forall X0, X0 = setFontSize 12 (setFont "helvetica" "normal" X) ->
              forall lines,
                draws (bs ++ [(mkFont "helvetica" "normal" 12, lines, margin, false)]) d
                  (advanceY (extent lines 7)
                     (emit (drawText (font (checkPageBreak margin pageHeight (extent lines 7) X0))
                              lines margin
                              (yPos (checkPageBreak margin pageHeight (extent lines 7) X0)) false)
                        (checkPageBreak margin pageHeight (extent lines 7) X0)))).
    { intros X0 -> lines. apply draws_advanceY.
      eapply draws_eq; [apply draws_block, draws_fontSize, draws_font, H|reflexivity]. }
    unfold textBlock.
    destruct (gq_question_type q), (gq_options q) as [options|];
      try (eapply draws_eq; [apply (Hb _ eq_refl)|rewrite ?app_nil_r; reflexivity]).
    unfold JS.forEachi, JS.mapi.
    match goal with
    | |- draws _ d (JS.forEachi_from 0 _ options ?Xs) =>
        pose proof (fun bs0 HI H0 =>
                      proj1 (draws_forEachi (fun Y => font Y = mkFont "courier" "normal" 12)
                               (fun opt i => [optionBlock pageWidth splitTextToSize opt i])
                               (drawOption pageHeight pageWidth splitTextToSize) options
                               (fun bs1 d0 Y x i HY Hd => draws_drawOption bs1 d0 Y x i HY Hd)
                               bs0 d Xs 0%nat HI H0)) as Hloop
    end.
    eapply draws_eq.
    - apply Hloop; [|apply draws_font, draws_advanceY, (Hb _ eq_refl)].
      unfold setFont, advanceY, emit. cbn [font fontSize].
      rewrite font_checkPageBreak. reflexivity.
    - rewrite concat_mapi_singletons, <- app_assoc. reflexivity. }
  pose proof (answerStringPDF_answerLine q) as Hc.
  destruct (gq_answer q) as [answer|].
  - destruct (answerLine q) as [answerString|].
    + destruct Hc as [Hc Hne]. rewrite Hc.
      destruct answerString as [|c rest]; [contradiction Hne; reflexivity|].
      eapply draws_eq.
      * apply draws_advanceY, draws_block, draws_fontSize, draws_font, draws_advanceY, Hm.
      * rewrite <- !app_assoc. reflexivity.
    + rewrite Hc. eapply draws_eq; [exact Hm|]. rewrite ?app_nil_r. reflexivity.
  - rewrite Hc. eapply draws_eq; [exact Hm|]. rewrite ?app_nil_r. reflexivity.
Qed.

(** The text blocks of the paginated export, in drawing order. *)
Lemma handleExportPDF_drawn (s : State) (operations : list PdfOp) :
  fst (handleExportPDF pageHeight pageWidth splitTextToSize s) = Some operations ->
  drawn operations
  = titleBlock pageWidth
    :: List.concat (JS.mapi (blocksFor pageWidth splitTextToSize) (acceptedQuestions s)).
Proof.
  unfold handleExportPDF. destruct (acceptedQuestions s) as [|q0 accepted] eqn:Ea;
    [discriminate|].
  cbn [fst]. intros H. inversion H as [Hops]. clear H Hops.
  match goal with
  | |- drawn (ops ?dfinal ++ _) = _ =>
      destruct (draws_forEachi (fun _ => True)
                  (blocksFor pageWidth splitTextToSize)
                  (drawQuestion pageHeight pageWidth splitTextToSize) (q0 :: accepted)
                  (fun bs0 d0 Y x i _ Hd => conj (draws_drawQuestion bs0 d0 Y x i Hd) I)
                  [titleBlock pageWidth] newDocument
                  (advanceY 15
                     (emit (drawText
                              (font (checkPageBreak margin pageHeight 20
                                       (setFontSize 18 (setFont "helvetica" "bold" newDocument))))
                              ["BloomSphere Generated Questions"] (pageWidth / 2)
                              (yPos (checkPageBreak margin pageHeight 20
                                       (setFontSize 18 (setFont "helvetica" "bold" newDocument))))
                              true)
                        (checkPageBreak margin pageHeight 20
                           (setFontSize 18 (setFont "helvetica" "bold" newDocument)))))
                  0%nat I) as [Hd _]
  end.
  { apply draws_advanceY.
    eapply draws_eq; [apply draws_block, draws_fontSize, draws_font, draws_start|].
    reflexivity. }
  rewrite drawn_app. unfold draws in Hd. unfold JS.forEachi, JS.mapi.
  rewrite Hd. cbn [drawn flat_map ops newDocument app]. rewrite app_nil_r. reflexivity.
Qed.

Lemma handleExportTXT_items (s : State) (index : nat) (q : GeneratedQuestion) :
  nth_error (acceptedQuestions s) index = Some q ->
  fst (handleExportTXT s)
  = Some (JS.join (JS.nl ++ JS.nl) (JS.mapi questionContentTXT (acceptedQuestions s)))
  /\ nth_error (JS.mapi questionContentTXT (acceptedQuestions s)) index
     = Some (questionContentTXT q index).
Proof.
  intros H. split.
  - unfold handleExportTXT. destruct (acceptedQuestions s); [destruct index; discriminate|].
    reflexivity.
  - unfold JS.mapi. rewrite (mapi_from_nth questionContentTXT _ index q 0 H). reflexivity.
Qed.

Lemma handleExportPDF_some (s : State) (index : nat) (q : GeneratedQuestion) :
  nth_error (acceptedQuestions s) index = Some q ->
  exists operations,
    fst (handleExportPDF pageHeight pageWidth splitTextToSize s) = Some operations.
Proof.
  intros H. unfold handleExportPDF.
  destruct (acceptedQuestions s); [destruct index; discriminate|].
  eexists. reflexivity.
Qed.

(** The paginated export draws exactly these text blocks, in this order
    and each once, whatever pages are started in between: the centred
    title, then for every accepted question its numbered text, its
    lettered options when it is multiple choice, and its answer line when
    it has one, each with the font, wrapped lines and indent given in
    [Terms]; it starts at most one page per block drawn; and it ends by
    saving bloomsphere-questions.pdf. *)
Theorem handleExportPDF_block_count (s : State) (operations : list PdfOp) :
  fst (handleExportPDF pageHeight pageWidth splitTextToSize s) = Some operations ->
  drawCount operations = (1 + list_sum (map blocksOf (acceptedQuestions s)))%nat
  /\ (pageCount operations <= drawCount operations)%nat
  /\ drawn operations
     = titleBlock pageWidth
       :: List.concat (JS.mapi (blocksFor pageWidth splitTextToSize) (acceptedQuestions s))
  /\ (exists body, operations = (body ++ [save "bloomsphere-questions.pdf"])%list).
Proof.
  intros Hsome. pose proof (handleExportPDF_drawn s operations Hsome) as Hdrawn.
  revert Hsome.
  unfold handleExportPDF. destruct (acceptedQuestions s) as [|q0 accepted] eqn:Ea;
    [discriminate|].
  cbn [fst]. intros H. injection H as Hops. subst operations.
  rewrite drawCount_app, pageCount_app.
  match goal with
  | |- (drawCount (ops ?dfinal) + _)%nat = _ /\ _ =>
      assert (Hg : grows (0 + 1 + list_sum (map blocksOf (q0 :: accepted)))
                     newDocument dfinal)
  end.
  { unfold JS.forEachi.
    apply (grows_forEachi blocksOf (drawQuestion pageHeight pageWidth splitTextToSize));
      [intros; apply grows_drawQuestion; assumption|].
    apply grows_advanceY.
    apply (grows_block 0), grows_fontSize, grows_font, grows_start. }
  destruct Hg as [Hd Hp]. change (ops newDocument) with (@nil PdfOp) in Hd, Hp.
  change (drawCount []) with 0%nat in Hd, Hp. change (pageCount []) with 0%nat in Hp.
  rewrite Hd. cbn [drawCount pageCount filter List.length].
  split; [lia|]. split; [lia|]. split; [exact Hdrawn|].
  eexists. reflexivity.
Qed.

(** Exporting changes nothing but the export menu, which it closes, and
    both exports leave the same state; either gives a file exactly when a
    question is accepted; so exporting twice, or one format after the
    other, gives the same files as exporting once. *)
Theorem exports_only_close_menu (s : State) :
  snd (handleExportPDF pageHeight pageWidth splitTextToSize s) = snd (handleExportTXT s)
  /\ (snd (handleExportTXT s) = s \/ snd (handleExportTXT s) = setIsExportMenuOpen false s)
  /\ (fst (handleExportTXT s) = None <-> acceptedQuestions s = [])
  /\ (fst (handleExportPDF pageHeight pageWidth splitTextToSize s) = None
      <-> acceptedQuestions s = [])
  /\ fst (handleExportTXT (snd (handleExportTXT s))) = fst (handleExportTXT s)
  /\ fst (handleExportPDF pageHeight pageWidth splitTextToSize (snd (handleExportTXT s)))
     = fst (handleExportPDF pageHeight pageWidth splitTextToSize s).
Proof.
  assert (Hacc : acceptedQuestions (setIsExportMenuOpen false s) = acceptedQuestions s)
    by (destruct s; reflexivity).
  unfold handleExportPDF, handleExportTXT.
  destruct (acceptedQuestions s) as [|q0 accepted] eqn:Ea; cbn [fst snd].
  - rewrite ?Ea. cbn [fst snd]. repeat split; auto.
  - rewrite ?Hacc, ?Ea. cbn [fst snd].
    repeat split; auto; try discriminate.
Qed.

End Layout.

(** ** The answers in the exported files *)

Section ExportedAnswers.

Import QuestionGenerator Workflow Spec Terms.

Local Open Scope string_scope.

(** C7: for a multiple-choice question with an option list and an answer
    string, the answer line of the text export and the answer string of the
    paginated export carry one and the same label, the one worded in the
    export description: the letter for the first option equal to the
    answer, then ") " and that option, or the raw answer when no option
    equals it.  Options Paris, Lyon, Nice with answer Lyon give "b) Lyon"
    in both.  And the files themselves carry it: whenever the question is
    the accepted question number [index], the text handed out by
    [handleExportTXT] is the items joined by blank lines, the item of this
    question ends with the line "   Answer: " and the label, and the
    document drawn by [handleExportPDF] has a block "Answer: " and the same
    label, in Helvetica bold 11 at indent 4. *)
Theorem export_answer_labels_agree (q : GeneratedQuestion) (index : nat)
    (options : list string) (answer : string) :
  gq_question_type q = MCQ ->
  gq_options q = Some options ->
  gq_answer q = Some (AnswerString answer) ->
  answerLabelTXT options (AnswerString answer) = answerLabel options answer
  /\ answerLabelPDF options (AnswerString answer) = answerLabel options answer
  /\ (exists body,
        questionContentTXT q index
        = body ++ JS.nl ++ "   Answer: " ++ answerLabel options answer)
  /\ answerStringPDF q (AnswerString answer) = "Answer: " ++ answerLabel options answer
  /\ (forall i, firstMatch options answer = Some i ->
        nth i options "" = answer
        /\ (forall j, (j < i)%nat -> nth j options "" <> answer)
        /\ answerLabel options answer
           = JS.fromCharCode (97 + Z.of_nat i) ++ ") " ++ answer)
  /\ (firstMatch options answer = None ->
        ~ In answer options /\ answerLabel options answer = answer)
  /\ answerLabel ["Paris"; "Lyon"; "Nice"] "Lyon" = "b) Lyon"
  /\ (forall (s : State) (pageHeight pageWidth : Q)
             (splitTextToSize : Font -> string -> Q -> list string),
        nth_error (acceptedQuestions s) index = Some q ->
        (exists items body pre post,
           fst (handleExportTXT s) = Some (JS.join (JS.nl ++ JS.nl) items)
           /\ List.length items = List.length (acceptedQuestions s)
           /\ nth_error items index
              = Some (body ++ JS.nl ++ "   Answer: " ++ answerLabel options answer)
           /\ JS.join (JS.nl ++ JS.nl) items
              = pre ++ (JS.nl ++ "   Answer: " ++ answerLabel options answer) ++ post)
        /\ (exists operations y,
              fst (handleExportPDF pageHeight pageWidth splitTextToSize s) = Some operations
              /\ In (drawText (mkFont "helvetica" "bold" 11)
                       (splitTextToSize (mkFont "helvetica" "bold" 11)
                          ("Answer: " ++ answerLabel options answer)
                          (pageWidth - 15 * 2 - 8)%Q)
                       (15 + 4)%Q y false) operations)).
Proof.
  intros Ht Ho Ha.
  assert (Hbody : exists body,
             questionContentTXT q index
             = body ++ JS.nl ++ "   Answer: " ++ answerLabel options answer).
  { unfold questionContentTXT. rewrite Ht, Ho, Ha, answerLabelTXT_spec.
    eexists. reflexivity. }
  split; [apply answerLabelTXT_spec|]. split; [apply answerLabelPDF_spec|].
  split; [exact Hbody|].
  split.
  { unfold answerStringPDF. rewrite Ht, Ho, answerLabelPDF_spec. reflexivity. }
  split.
  { intros i Hi. split; [apply (firstMatch_nth answer options i Hi)|].
    split; [apply (firstMatch_first answer options i Hi)|].
    unfold answerLabel. rewrite Hi, (firstMatch_nth answer options i Hi). reflexivity. }
  split.
  { intros Hn. split; [apply firstMatch_none, Hn|].
    unfold answerLabel. rewrite Hn. reflexivity. }
  split; [reflexivity|].
  intros s pageHeight pageWidth splitTextToSize Hn. split.
  - destruct (handleExportTXT_items s index q Hn) as [Hc Hi].
    destruct Hbody as [body Hbody]. rewrite Hbody in Hi.
    destruct (join_contains (JS.nl ++ JS.nl) _ index _ Hi) as (pre & post & Hj).
    exists (JS.mapi questionContentTXT (acceptedQuestions s)), body, (pre ++ body), post.
    split; [exact Hc|]. split; [apply mapi_from_length|]. split; [exact Hi|].
    rewrite Hj, !string_append_assoc. reflexivity.
  - destruct (handleExportPDF_some pageHeight pageWidth splitTextToSize s index q Hn)
      as [operations Hsome].
    pose proof (handleExportPDF_drawn pageHeight pageWidth splitTextToSize s operations Hsome)
      as Hd.
    destruct (In_drawn (mkFont "helvetica" "bold" 11)
                (splitTextToSize (mkFont "helvetica" "bold" 11)
                   ("Answer: " ++ answerLabel options answer) (pageWidth - 15 * 2 - 8)%Q)
                (15 + 4)%Q false operations) as [y Hy].
    { rewrite Hd. right. apply (In_concat_mapi _ _ index q); [exact Hn|].
      unfold blocksFor, answerLine. rewrite Ht, Ho, Ha.
      apply in_or_app. right. apply in_or_app. right. left. reflexivity. }
    exists operations, y. split; [exact Hsome|exact Hy].
Qed.

Lemma export_answer_labels_agree_witness :
  let q := mkGeneratedQuestion 0 "Which city is on the Rhone?" accepted MCQ
             (Some ["Paris"; "Lyon"; "Nice"]) (Some (AnswerString "Lyon")) in
  let s := setGeneratedQuestions [q] initialState in
  (exists pre post,
     fst (handleExportTXT s) = Some (pre ++ (JS.nl ++ "   Answer: b) Lyon") ++ post))
  /\ (exists operations y,
        fst (handleExportPDF 297 210 (fun _ t _ => [t]) s) = Some operations
        /\ In (drawText (mkFont "helvetica" "bold" 11) ["Answer: b) Lyon"] (15 + 4)%Q y false)
             operations).
Proof.
  intros q s.
  destruct (export_answer_labels_agree q 0 ["Paris"; "Lyon"; "Nice"] "Lyon"
              eq_refl eq_refl eq_refl) as (_ & _ & _ & _ & _ & _ & _ & Hfiles).
  destruct (Hfiles s 297 210 (fun _ t _ => [t]) eq_refl)
    as [(items & body & pre & post & Hc & _ & _ & Hj) (operations & y & Hp & Hin)].
  split.
  - exists pre, post. rewrite Hc, Hj. reflexivity.
  - exists operations, y. split; [exact Hp|exact Hin].
Defined.

(** In every reachable state each accepted question has the shape of its
    kind and both exported files show it with the same answer.  The text
    file is the items joined by blank lines and the document draws the
    title and then the blocks of the accepted questions in order.  A plain
    question gives the item with its number and text and only its text
    block, no answer line; a true/false question has a boolean answer, its
    item ends with "   Answer: true" or "   Answer: false" and its blocks
    are the marked text and "Answer: true" or "Answer: false"; a
    multiple-choice question has its options and a string answer, its item
    lists the lettered options and ends with the lettered answer label,
    and its blocks are the text, the options and "Answer: " with the same
    label. *)
Theorem reachable_exports_agree (s : State) (q : GeneratedQuestion) (index : nat)
    (pageHeight pageWidth : Q) (splitTextToSize : Font -> string -> Q -> list string) :
  reachable s -> nth_error (acceptedQuestions s) index = Some q ->
  exists items operations,
    fst (handleExportTXT s) = Some (JS.join (JS.nl ++ JS.nl) items)
    /\ List.length items = List.length (acceptedQuestions s)
    /\ fst (handleExportPDF pageHeight pageWidth splitTextToSize s) = Some operations
    /\ drawn operations
       = titleBlock pageWidth
         :: List.concat (JS.mapi (blocksFor pageWidth splitTextToSize) (acceptedQuestions s))
    /\ match gq_question_type q with
       | text =>
           gq_options q = None /\ gq_answer q = None
           /\ nth_error items index = Some (JS.show_nat (index + 1) ++ ". " ++ gq_text q)
           /\ blocksFor pageWidth splitTextToSize q index
              = [(mkFont "helvetica" "normal" 12,
                  splitTextToSize (mkFont "helvetica" "normal" 12)
                    (JS.show_nat (index + 1) ++ ". " ++ gq_text q) (pageWidth - 15 * 2)%Q,
                  15%Q, false)]
       | TrueFalse =>
           exists b,
             gq_answer q = Some (AnswerBoolean b)
             /\ nth_error items index
                = Some ((JS.show_nat (index + 1) ++ ". " ++ gq_text q) ++ " (True/False)"
                        ++ JS.nl ++ "   Answer: " ++ JS.show_bool b)
             /\ blocksFor pageWidth splitTextToSize q index
                = [(mkFont "helvetica" "normal" 12,
                    splitTextToSize (mkFont "helvetica" "normal" 12)
                      (JS.show_nat (index + 1) ++ ". " ++ gq_text q ++ " (True/False)")
                      (pageWidth - 15 * 2)%Q,
                    15%Q, false);
                   (mkFont "helvetica" "bold" 11,
                    splitTextToSize (mkFont "helvetica" "bold" 11)
                      ("Answer: " ++ JS.show_bool b) (pageWidth - 15 * 2 - 8)%Q,
                    (15 + 4)%Q, false)]
             /\ (exists y,
                   In (drawText (mkFont "helvetica" "bold" 11)
                         (splitTextToSize (mkFont "helvetica" "bold" 11)
                            ("Answer: " ++ JS.show_bool b) (pageWidth - 15 * 2 - 8)%Q)
                         (15 + 4)%Q y false) operations)
       | MCQ =>
           exists options answer,
             gq_options q = Some options /\ gq_answer q = Some (AnswerString answer)
             /\ nth_error items index
                = Some (((JS.show_nat (index + 1) ++ ". " ++ gq_text q) ++ JS.nl
                         ++ JS.join JS.nl
                              (JS.mapi (fun opt i =>
                                          "   " ++ JS.fromCharCode (97 + Z.of_nat i)
                                          ++ ") " ++ opt) options))
                        ++ JS.nl ++ "   Answer: " ++ answerLabel options answer)
             /\ blocksFor pageWidth splitTextToSize q index
                = (mkFont "helvetica" "normal" 12,
                   splitTextToSize (mkFont "helvetica" "normal" 12)
                     (JS.show_nat (index + 1) ++ ". " ++ gq_text q) (pageWidth - 15 * 2)%Q,
                   15%Q, false)
                  :: List.app
                       (JS.mapi (fun opt i =>
                                   (mkFont "courier" "normal" 12,
                                    splitTextToSize (mkFont "courier" "normal" 12)
                                      ((JS.fromCharCode (97 + Z.of_nat i) ++ ")")
                                       ++ " " ++ opt)
                                      (pageWidth - 15 * 2 - 8)%Q,
                                    (15 + 8)%Q, false)) options)
                       [(mkFont "helvetica" "bold" 11,
                         splitTextToSize (mkFont "helvetica" "bold" 11)
                           ("Answer: " ++ answerLabel options answer)
                           (pageWidth - 15 * 2 - 8)%Q,
                         (15 + 4)%Q, false)]
             /\ (exists y,
                   In (drawText (mkFont "helvetica" "bold" 11)
                         (splitTextToSize (mkFont "helvetica" "bold" 11)
                            ("Answer: " ++ answerLabel options answer)
                            (pageWidth - 15 * 2 - 8)%Q)
                         (15 + 4)%Q y false) operations)
       end.
Proof.
  intros H Hn.
  assert (Hq : In q (generatedQuestions s)).
  { apply nth_error_In in Hn. unfold acceptedQuestions in Hn.
    apply filter_In in Hn. exact (proj1 Hn). }
  apply reachable_invariant in H. destruct H as (_ & _ & Hw & _).
  pose proof (proj1 (Forall_forall _ _) Hw q Hq) as Hshape.
  destruct (handleExportTXT_items s index q Hn) as [Hc Hi].
  destruct (handleExportPDF_some pageHeight pageWidth splitTextToSize s index q Hn)
    as [operations Hsome].
  pose proof (handleExportPDF_drawn pageHeight pageWidth splitTextToSize s operations Hsome)
    as Hd.
  exists (JS.mapi questionContentTXT (acceptedQuestions s)), operations.
  split; [exact Hc|]. split; [apply mapi_from_length|]. split; [exact Hsome|].
  split; [exact Hd|].
  assert (Hblock : forall b, In b (blocksFor pageWidth splitTextToSize q index) ->
                             In b (drawn operations)).
  { intros b Hb. rewrite Hd. right. apply (In_concat_mapi _ _ index q); assumption. }
  rewrite Hi. revert Hblock.
  unfold wellShaped in Hshape.
  unfold questionContentTXT, blocksFor, textBlock, answerBlock, answerLine.
  destruct (gq_question_type q).
  - destruct Hshape as [Ho Ha]. rewrite ?Ho, ?Ha. intros _.
    rewrite string_append_nil_r.
    split; [reflexivity|]. split; [reflexivity|]. split; reflexivity.
  - destruct Hshape as [Ho [b Ha]]. rewrite ?Ho, ?Ha. intros Hblock. exists b.
    split; [reflexivity|]. split; [reflexivity|]. split; [reflexivity|].
    apply In_drawn, Hblock. right. left. reflexivity.
  - destruct Hshape as [[options Ho] [answer Ha]]. rewrite ?Ho, ?Ha. intros Hblock.
    exists options, answer. rewrite answerLabelTXT_spec, string_append_nil_r.
    split; [reflexivity|]. split; [reflexivity|]. split; [reflexivity|].
    split; [reflexivity|].
    apply In_drawn, Hblock. apply in_or_app. right. apply in_or_app. right.
    left. reflexivity.
Qed.

Lemma reachable_exports_agree_witness :
  let s := run [FileChange (Some [mkFile "notes.pdf" "application/pdf" 1024]);
                Next; Next; Generate;
                Settle (ResponseOk [ApiTrueFalse (mkApiTFInfo "Water boils at 100 C." true)]);
                Accept 0] initialState in
  exists operations y,
    fst (handleExportTXT s)
    = Some ("1. Water boils at 100 C. (True/False)" ++ JS.nl ++ "   Answer: true")
    /\ fst (handleExportPDF 297 210 (fun _ t _ => [t]) s) = Some operations
    /\ In (drawText (mkFont "helvetica" "bold" 11) ["Answer: true"] (15 + 4)%Q y false)
         operations.
Proof.
  intros s.
  assert (H : reachable s) by (eexists; reflexivity).
  destruct (reachable_exports_agree s
              (mkGeneratedQuestion 0 "Water boils at 100 C." accepted TrueFalse None
                 (Some (AnswerBoolean true)))
              0 297 210 (fun _ t _ => [t]) H eq_refl)
    as (items & operations & Hc & _ & Hp & _ & b & Hb & _ & _ & y & Hin).
  injection Hb as <-.
  exists operations, y. split; [reflexivity|]. split; [exact Hp|exact Hin].
Defined.

End ExportedAnswers.

Section LayoutExamples.

Local Open Scope string_scope.

Lemma handleExportPDF_below_top_margin_witness :
  let q := mkGeneratedQuestion 0 "Which city is on the Rhone?" accepted MCQ
             (Some ["Paris"; "Lyon"; "Nice"]) (Some (AnswerString "Lyon")) in
  let s := QuestionGenerator.setGeneratedQuestions [q] QuestionGenerator.initialState in
  exists operations,
    fst (QuestionGenerator.handleExportPDF 297 210 (fun _ t _ => [t]) s) = Some operations
    /\ Workflow.placedBelow 15 operations.
Proof.
  intros q s. eexists. split; [reflexivity|].
  apply (handleExportPDF_below_top_margin 297 210 (fun _ t _ => [t]) s). reflexivity.
Defined.

Lemma handleExportPDF_block_count_witness :
  let q := mkGeneratedQuestion 0 "Which city is on the Rhone?" accepted MCQ
             (Some ["Paris"; "Lyon"; "Nice"]) (Some (AnswerString "Lyon")) in
  let s := QuestionGenerator.setGeneratedQuestions [q] QuestionGenerator.initialState in
  exists operations,
    fst (QuestionGenerator.handleExportPDF 297 210 (fun _ t _ => [t]) s) = Some operations
    /\ Workflow.drawCount operations = 6%nat
    /\ map (fun b => snd (fst (fst b))) (Terms.drawn operations)
       = [["BloomSphere Generated Questions"]; ["1. Which city is on the Rhone?"];
          ["a) Paris"]; ["b) Lyon"]; ["c) Nice"]; ["Answer: b) Lyon"]].
Proof.
  intros q s. eexists. split; [reflexivity|].
  destruct (handleExportPDF_block_count 297 210 (fun _ t _ => [t]) s _ eq_refl)
    as (Hcount & _ & Hdrawn & _).
  split; [exact Hcount|]. rewrite Hdrawn. reflexivity.
Defined.

End LayoutExamples.
